(** * DevFlow: task lifecycle, permission policy and live-meeting coordination

    A shallow embedding of the stateful core of the DevFlow dashboard:
    the [App] component's task, project and live-meeting handlers, the
    board's drag permission, the meeting room's start gate, and the
    polling of the shared [localStorage] record.

    Conventions.
    - A JavaScript string is the sequence of its UTF-16 code units. The
      embedding covers the strings whose code units are all below 256
      (the Latin-1 range), one [ascii] per code unit; on that range
      [toLowerCase] and [trim] are the ones of ECMAScript (upper-case
      letters are A-Z and the accented U+00C0-U+00DE without U+00D7;
      white space is TAB, LF, VT, FF, CR, SPACE and U+00A0).
    - [Date.now()] is an integer number of milliseconds ([Z]);
      [estimatedHours] is a whole number kept in [Z]. Where a number is
      computed with or printed, it is taken up to
      [Number.MAX_SAFE_INTEGER], where the doubles of the source and
      the integers agree.
    - [Math.random().toString(36).substr(2, 9)] and [Date.now()] are
      inputs of the handlers that call them; [confirm] is an input too.
    - React state is passed explicitly; a handler is a function from the
      state its closure captured to the state after the queued updates
      have been applied. *)

From Stdlib Require Import ZArith Ascii String List Bool Lia.
From stdpp Require Import base option list strings gmap fin_maps pretty.

Local Open Scope string_scope.
Local Open Scope Z_scope.

(** ** JavaScript string primitives *)

Module JsString.

(** The upper-case letters among the code units below 256: A-Z,
    U+00C0-U+00D6 and U+00D8-U+00DE. *)
Definition isUpperCase (c : ascii) : bool :=
  let n := nat_of_ascii c in
  ((65 <=? n)%nat && (n <=? 90)%nat) ||
  ((192 <=? n)%nat && (n <=? 214)%nat) ||
  ((216 <=? n)%nat && (n <=? 222)%nat).

(** [c.toLowerCase()] on one code unit: the lower-case letter of each
    of these is 32 further. *)
Definition toLowerCase_char (c : ascii) : ascii :=
  if isUpperCase c then ascii_of_nat (nat_of_ascii c + 32) else c.

(** [s.toLowerCase()]. *)
Fixpoint toLowerCase (s : string) : string :=
  match s with
  | EmptyString => EmptyString
  | String c r => String (toLowerCase_char c) (toLowerCase r)
  end.

(** [s.startsWith(p)]. *)
Fixpoint startsWith (p s : string) : bool :=
  match p, s with
  | EmptyString, _ => true
  | String _ _, EmptyString => false
  | String a p', String b s' => Ascii.eqb a b && startsWith p' s'
  end.

(** [hay.includes(needle)]: [needle] occurs in [hay] at some offset. *)
Fixpoint includes (needle hay : string) : bool :=
  startsWith needle hay ||
  match hay with
  | EmptyString => false
  | String _ r => includes needle r
  end.

(** [s.split(sep)] for a one-character separator: never empty. *)
Fixpoint split (sep : ascii) (s : string) : list string :=
  match s with
  | EmptyString => [EmptyString]
  | String c r =>
      if Ascii.eqb c sep then EmptyString :: split sep r
      else match split sep r with
           | h :: t => String c h :: t
           | [] => [String c EmptyString]
           end
  end.

(** The white space and line terminators [trim] removes, among the
    code units below 256: TAB, LF, VT, FF, CR, SPACE and U+00A0
    (no-break space). *)
Definition isWhiteSpace (c : ascii) : bool :=
  let n := nat_of_ascii c in
  ((9 <=? n)%nat && (n <=? 13)%nat) || (n =? 32)%nat || (n =? 160)%nat.

Fixpoint trimStart (s : string) : string :=
  match s with
  | EmptyString => EmptyString
  | String c r => if isWhiteSpace c then trimStart r else s
  end.

(** [trimEnd]: a character is dropped when it is white space and
    everything after it has been dropped. *)
Fixpoint trimEnd (s : string) : string :=
  match s with
  | EmptyString => EmptyString
  | String c r =>
      match trimEnd r with
      | EmptyString => if isWhiteSpace c then EmptyString else String c EmptyString
      | r' => String c r'
      end
  end.

(** [s.trim()]. *)
Definition trim (s : string) : string := trimEnd (trimStart s).

(** Every character of [s] is white space. *)
Fixpoint allWhiteSpace (s : string) : bool :=
  match s with
  | EmptyString => true
  | String c r => isWhiteSpace c && allWhiteSpace r
  end.

(** Truthiness of a string: only [""] is falsy. *)
Definition truthy (s : string) : bool := negb (String.eqb s "").

End JsString.

(** ** JavaScript numbers *)

Module JsNumber.

(** [Number.MAX_SAFE_INTEGER], 2^53 - 1. A whole number from 0 up to it
    is a double; for such numbers [Math.floor(n / 60)], [n % 60] and
    the decimal text of the number are those of the integers. *)
Definition MAX_SAFE_INTEGER : Z := 9007199254740991.

Definition isSafe (n : Z) : Prop := 0 <= n <= MAX_SAFE_INTEGER.

End JsNumber.

(** ** types.ts *)

Inductive TaskStatus := TODO | IN_PROGRESS | REVIEW | DONE.
Inductive TaskCategory := FRONTEND | API | DEVOPS | DESIGN | GENERAL.
Inductive Priority := LOW | MEDIUM | HIGH.
Inductive UserRole := ADMIN | MANAGER | EMPLOYEE.

Module Project.
Record t := mk { id : string; name : string; description : string }.
End Project.
Abbreviation Project := Project.t.

Module Task.
Record t := mk {
  id : string;
  projectId : string;
  title : string;
  description : string;
  status : TaskStatus;
  category : TaskCategory;
  assignee : string;
  priority : Priority;
  acceptanceCriteria : list string;
  estimatedHours : Z;
  technicalPlan : option string;
  createdAt : Z
}.
End Task.
Abbreviation Task := Task.t.

Module User.
Record t := mk {
  id : string;
  name : string;
  email : string;
  role : UserRole;
  avatar : string
}.
End User.
Abbreviation User := User.t.

#[global] Instance UserRole_eq_dec : EqDecision UserRole.
Proof. solve_decision. Defined.
#[global] Instance TaskStatus_eq_dec : EqDecision TaskStatus.
Proof. solve_decision. Defined.
#[global] Instance TaskCategory_eq_dec : EqDecision TaskCategory.
Proof. solve_decision. Defined.
#[global] Instance Priority_eq_dec : EqDecision Priority.
Proof. solve_decision. Defined.

(** ** Permission policy of the board (StatusColumn and TaskBoard) *)

Module Permission.
Import JsString.

(** [user?.role !== 'EMPLOYEE']: true as well when nobody is logged in. *)
Definition notEmployee (user : option User) : bool :=
  match user with
  | Some u => negb (bool_decide (User.role u = EMPLOYEE))
  | None => true
  end.

(** [user?.name && task.assignee.toLowerCase().includes(
       user.name.split(' ')[0].toLowerCase())], by its truthiness. *)
Definition isAssignee (user : option User) (task : Task) : bool :=
  match user with
  | None => false
  | Some u =>
      truthy (User.name u) &&
      includes (toLowerCase (hd EmptyString (split " " (User.name u))))
               (toLowerCase (Task.assignee task))
  end.

(** [user?.role !== 'EMPLOYEE' || isAssignee]. *)
Definition canDrag (user : option User) (task : Task) : bool :=
  notEmployee user || isAssignee user task.

(** [user?.role !== 'EMPLOYEE']. *)
Definition canEditInfo (user : option User) : bool := notEmployee user.

(** [user?.role === 'ADMIN' || user?.role === 'MANAGER'] (TaskBoard's
    [canDelete], [canCreateProject], [canCreateTask]; MeetingRoom's
    [isHost]). *)
Definition isPrivileged (user : option User) : bool :=
  match user with
  | Some u => bool_decide (User.role u = ADMIN) || bool_decide (User.role u = MANAGER)
  | None => false
  end.

(** TeamBoard's filter for "my tasks":
    [user.name.includes(t.assignee) ||
     t.assignee.includes(user.name.split(' ')[0])], with no change of
    case. It selects what the page lists, not what may be dragged. *)
Definition teamBoardMine (u : User) (task : Task) : bool :=
  includes (Task.assignee task) (User.name u) ||
  includes (hd EmptyString (split " " (User.name u))) (Task.assignee task).

(** The match rule in the words of the specification: the user's first
    name token is a substring of the assignee string, or the assignee
    string is a substring of the first name token, compared without
    regard to case. *)
Definition fuzzyMatch_spec (u : User) (task : Task) : bool :=
  let first := toLowerCase (hd EmptyString (split " " (User.name u))) in
  let who := toLowerCase (Task.assignee task) in
  includes first who || includes who first.

End Permission.

(** ** App: projects and tasks *)

Module App.

(** [Omit<Task, 'id' | 'createdAt' | 'projectId'>]: what the task form
    submits ([TaskModal.handleSubmit]). *)
Record TaskData := mkTaskData {
  title : string;
  description : string;
  category : TaskCategory;
  priority : Priority;
  assignee : string;
  status : TaskStatus;
  acceptanceCriteria : list string;
  estimatedHours : Z;
  technicalPlan : option string
}.

(** The [useState] cells of [App] that the task handlers read or write,
    and the logged-in user of the auth context. *)
Record State := mkState {
  user : option User;
  projects : list Project;
  activeProjectId : string;
  tasks : list Task;
  isModalOpen : bool;
  taskToEdit : option Task
}.

(** What a handler shows to the user. *)
Inductive Event :=
  | Alert (message : string)
  | Confirm (message : string).

Definition INITIAL_PROJECTS : list Project :=
  [ Project.mk "p1" "E-Commerce Replatform"
      "Migrating legacy monolith to Next.js and Microservices.";
    Project.mk "p2" "Mobile App v2.0"
      "Complete redesign of the customer loyalty mobile application.";
    Project.mk "p3" "Internal Admin Dashboard"
      "Back-office tools for inventory and user management." ].

(** [loaded] is the clock reading when the module is evaluated. *)
Definition INITIAL_TASKS (loaded : Z) : list Task :=
  [ Task.mk "t1" "p1" "Product Listing Page (PLP)"
      "Implement grid layout with filtering and sorting for products."
      DONE FRONTEND "Sarah" HIGH
      ["Filters work"; "Responsive grid"; "Load more pagination"]
      12 None (loaded - 200000000);
    Task.mk "t2" "p1" "Checkout API Integration"
      "Integrate Stripe Payment Intents API for secure checkout."
      IN_PROGRESS API "Mike" HIGH
      ["Payment intent created"; "Webhook handler setup"]
      8 None (loaded - 100000000);
    Task.mk "t3" "p1" "CI/CD Pipeline Setup"
      "Configure GitHub Actions for automated testing and deployment to AWS."
      REVIEW DEVOPS "Yassine" HIGH
      ["Build passes"; "Tests run"; "Deploys to staging"]
      6 None (loaded - 50000000);
    Task.mk "t4" "p1" "Redis Caching Layer"
      "Implement caching for frequent product API queries to reduce DB load."
      TODO API "Mike" MEDIUM
      ["Cache hit ratio > 80%"; "TTL configured"]
      4 None loaded;
    Task.mk "t5" "p2" "Biometric Authentication"
      "Implement FaceID/TouchID login using native modules."
      TODO FRONTEND "Sarah" MEDIUM
      ["FaceID works on iOS"; "Fallback to PIN"]
      5 None (loaded - 10000000);
    Task.mk "t6" "p2" "Push Notification Service"
      "Setup Firebase Cloud Messaging for marketing alerts."
      IN_PROGRESS API "Mike" LOW
      ["Token registration"; "Send endpoint works"]
      6 None (loaded - 5000000);
    Task.mk "t7" "p3" "User Management Table"
      "Create a data table with search and bulk actions for user administration."
      TODO FRONTEND "Mike" LOW
      ["Search by email"; "Bulk delete"; "Pagination"]
      4 None loaded;
    Task.mk "t8" "p3" "Inventory Analytics Charts"
      "Visualize stock levels using Recharts bar and line charts."
      TODO FRONTEND "Sarah" MEDIUM
      ["Bar chart for categories"; "Line chart for trends"]
      6 None loaded ].

(** The state of the first render: [activeProjectId] is
    [INITIAL_PROJECTS[0].id]. *)
Definition initial (u : option User) (loaded : Z) : State :=
  {| user := u;
     projects := INITIAL_PROJECTS;
     activeProjectId := "p1";
     tasks := INITIAL_TASKS loaded;
     isModalOpen := false;
     taskToEdit := None |}.

(** [{ ...t, ...taskData }]. *)
Definition merge (t : Task) (d : TaskData) : Task :=
  {| Task.id := Task.id t;
     Task.projectId := Task.projectId t;
     Task.title := title d;
     Task.description := description d;
     Task.status := status d;
     Task.category := category d;
     Task.assignee := assignee d;
     Task.priority := priority d;
     Task.acceptanceCriteria := acceptanceCriteria d;
     Task.estimatedHours := estimatedHours d;
     Task.technicalPlan := technicalPlan d;
     Task.createdAt := Task.createdAt t |}.

(** [{ ...taskData, id: <random>, projectId: activeProjectId,
       createdAt: Date.now() }]. *)
Definition newTask (rid : string) (now : Z) (active : string) (d : TaskData) : Task :=
  {| Task.id := rid;
     Task.projectId := active;
     Task.title := title d;
     Task.description := description d;
     Task.status := status d;
     Task.category := category d;
     Task.assignee := assignee d;
     Task.priority := priority d;
     Task.acceptanceCriteria := acceptanceCriteria d;
     Task.estimatedHours := estimatedHours d;
     Task.technicalPlan := technicalPlan d;
     Task.createdAt := now |}.

(** [{ ...t, status: newStatus }]. *)
Definition withStatus (t : Task) (s : TaskStatus) : Task :=
  {| Task.id := Task.id t;
     Task.projectId := Task.projectId t;
     Task.title := Task.title t;
     Task.description := Task.description t;
     Task.status := s;
     Task.category := Task.category t;
     Task.assignee := Task.assignee t;
     Task.priority := Task.priority t;
     Task.acceptanceCriteria := Task.acceptanceCriteria t;
     Task.estimatedHours := Task.estimatedHours t;
     Task.technicalPlan := Task.technicalPlan t;
     Task.createdAt := Task.createdAt t |}.

Definition setProjects (f : list Project -> list Project) (st : State) : State :=
  {| user := user st; projects := f (projects st);
     activeProjectId := activeProjectId st; tasks := tasks st;
     isModalOpen := isModalOpen st; taskToEdit := taskToEdit st |}.

Definition setActiveProjectId (p : string) (st : State) : State :=
  {| user := user st; projects := projects st;
     activeProjectId := p; tasks := tasks st;
     isModalOpen := isModalOpen st; taskToEdit := taskToEdit st |}.

Definition setTasks (f : list Task -> list Task) (st : State) : State :=
  {| user := user st; projects := projects st;
     activeProjectId := activeProjectId st; tasks := f (tasks st);
     isModalOpen := isModalOpen st; taskToEdit := taskToEdit st |}.

Definition setIsModalOpen (b : bool) (st : State) : State :=
  {| user := user st; projects := projects st;
     activeProjectId := activeProjectId st; tasks := tasks st;
     isModalOpen := b; taskToEdit := taskToEdit st |}.

Definition setTaskToEdit (t : option Task) (st : State) : State :=
  {| user := user st; projects := projects st;
     activeProjectId := activeProjectId st; tasks := tasks st;
     isModalOpen := isModalOpen st; taskToEdit := t |}.

Definition setUser (u : option User) (st : State) : State :=
  {| user := u; projects := projects st;
     activeProjectId := activeProjectId st; tasks := tasks st;
     isModalOpen := isModalOpen st; taskToEdit := taskToEdit st |}.

(** [handleCreateProject(name, description)]; [rid] is the random id. *)
Definition handleCreateProject (rid name description : string) (st : State) : State :=
  let newProject := Project.mk rid name description in
  setActiveProjectId (Project.id newProject)
    (setProjects (fun prev => (prev ++ [newProject])%list) st).

(** [handleSaveTask(taskData)]; [rid] and [now] are the values
    [Math.random()...] and [Date.now()] give when the new-task branch
    runs. *)
Definition handleSaveTask (rid : string) (now : Z) (taskData : TaskData) (st : State) : State :=
  setTaskToEdit None
    match taskToEdit st with
    | Some e =>
        setTasks (fun prev =>
          List.map (fun t => if String.eqb (Task.id t) (Task.id e)
                             then merge t taskData else t) prev) st
    | None =>
        setTasks (fun prev => (prev ++ [newTask rid now (activeProjectId st) taskData])%list) st
    end.

(** [user?.role === 'EMPLOYEE']. *)
Definition isEmployee (u : option User) : bool :=
  match u with
  | Some x => bool_decide (User.role x = EMPLOYEE)
  | None => false
  end.

(** [handleDeleteTask(taskId)]; [confirm] is the user's answer to the
    dialog, asked only when the dialog is shown. *)
Definition handleDeleteTask (confirm : string -> bool) (taskId : string) (st : State)
  : State * list Event :=
  if isEmployee (user st) then
    (st, [Alert "Clearance Level Insufficient: Cannot delete objectives."])
  else
    let q := "Confirm protocol: Delete this objective?" in
    if confirm q then
      (setTasks (fun prev =>
         List.filter (fun t => negb (String.eqb (Task.id t) taskId)) prev) st,
       [Confirm q])
    else (st, [Confirm q]).

(** [handleStatusChange(taskId, newStatus)]. *)
Definition handleStatusChange (taskId : string) (newStatus : TaskStatus) (st : State) : State :=
  setTasks (fun prev =>
    List.map (fun t => if String.eqb (Task.id t) taskId
                       then withStatus t newStatus else t) prev) st.

Definition openNewTaskModal (st : State) : State :=
  setIsModalOpen true (setTaskToEdit None st).

Definition openEditTaskModal (task : Task) (st : State) : State :=
  setIsModalOpen true (setTaskToEdit (Some task) st).

(** [tasks.find(t => t.id === i)]. *)
Definition findTask (i : string) (l : list Task) : option Task :=
  List.find (fun t => String.eqb (Task.id t) i) l.

(** One user action on the task and project state. Projects are chosen
    from the rendered list ([projects.map(project => ...
    onSelectProject(project.id))]), the team board navigates to the
    project of a listed task ([onNavigateToTask(task.projectId)]), and
    the edit dialog is opened on a listed task. *)
Inductive step : State -> State -> Prop :=
  | step_login u st :
      step st (setUser u st)
  | step_createProject rid name description st :
      step st (handleCreateProject rid name description st)
  | step_selectProject p st :
      p ∈ projects st ->
      step st (setActiveProjectId (Project.id p) st)
  | step_navigateToTask t st :
      t ∈ tasks st ->
      step st (setActiveProjectId (Task.projectId t) st)
  | step_openNew st :
      step st (openNewTaskModal st)
  | step_openEdit t st :
      t ∈ tasks st ->
      step st (openEditTaskModal t st)
  | step_closeModal st :
      step st (setIsModalOpen false st)
  | step_saveTask rid now d st :
      step st (handleSaveTask rid now d st)
  | step_deleteTask confirm taskId st :
      step st (fst (handleDeleteTask confirm taskId st))
  | step_statusChange taskId s st :
      step st (handleStatusChange taskId s st).

(** States reached from the first render by any number of actions. *)
Inductive reachable (u : option User) (loaded : Z) : State -> Prop :=
  | reach_initial : reachable u loaded (initial u loaded)
  | reach_step st st' :
      reachable u loaded st -> step st st' -> reachable u loaded st'.

(** Every task belongs to a listed project, and so does the active
    project id. *)
Definition projectIds (st : State) : list string := List.map Project.id (projects st).

Definition referentialIntegrity (st : State) : Prop :=
  activeProjectId st ∈ projectIds st /\
  Forall (fun t => Task.projectId t ∈ projectIds st) (tasks st).

End App.

(** ** TaskModal: submitting the form *)

Module TaskModal.

(** The form fields; [technicalPlan] is a string, empty by default. *)
Record Form := mkForm {
  title : string;
  description : string;
  category : TaskCategory;
  priority : Priority;
  assignee : string;
  status : TaskStatus;
  acceptanceCriteria : list string;
  estimatedHours : Z;
  technicalPlan : string
}.

(** The object literal passed to [onSave]. *)
Definition taskData (f : Form) : App.TaskData :=
  App.mkTaskData (title f) (description f) (category f) (priority f)
    (assignee f) (status f) (acceptanceCriteria f) (estimatedHours f)
    (Some (technicalPlan f)).

(** [handleSubmit]: [onSave(...)], then [onClose()]. *)
Definition handleSubmit (rid : string) (now : Z) (f : Form) (st : App.State) : App.State :=
  App.setIsModalOpen false (App.handleSaveTask rid now (taskData f) st).

End TaskModal.

(** ** JSON.parse and JSON.stringify

    [JSON.parse] as a recursive-descent parser of the JSON grammar
    (ECMA-404).  String and number leaves are kept as they are written
    (escapes are checked, not decoded); object members are kept in the
    order of the text. *)

Module Json.

Unset Elimination Schemes.
Inductive value :=
  | Null
  | Bool (b : bool)
  | Number (lexeme : string)
  | Str (raw : string)
  | Array (elements : list value)
  | Object (members : list (string * value)).
Set Elimination Schemes.

Definition dquote : ascii := ascii_of_nat 34.
Definition backslash : ascii := ascii_of_nat 92.

(** JSON white space: SPACE, TAB, LF, CR. *)
Definition isJsonSpace (c : ascii) : bool :=
  let n := nat_of_ascii c in
  (n =? 32)%nat || (n =? 9)%nat || (n =? 10)%nat || (n =? 13)%nat.

Fixpoint skipWs (s : string) : string :=
  match s with
  | EmptyString => EmptyString
  | String c r => if isJsonSpace c then skipWs r else s
  end.

Definition isDigit (c : ascii) : bool :=
  let n := nat_of_ascii c in (48 <=? n)%nat && (n <=? 57)%nat.

Definition isHex (c : ascii) : bool :=
  let n := nat_of_ascii c in
  isDigit c || ((97 <=? n)%nat && (n <=? 102)%nat)
            || ((65 <=? n)%nat && (n <=? 70)%nat).

(** The longest run of digits at the head of [s], and what follows. *)
Fixpoint digits (s : string) : string * string :=
  match s with
  | EmptyString => (EmptyString, EmptyString)
  | String c r =>
      if isDigit c then let '(d, r') := digits r in (String c d, r')
      else (EmptyString, s)
  end.

(** The character after a backslash, [u] apart. *)
Definition isSimpleEscape (c : ascii) : bool :=
  Ascii.eqb c dquote || Ascii.eqb c backslash || Ascii.eqb c "/" ||
  Ascii.eqb c "b" || Ascii.eqb c "f" || Ascii.eqb c "n" ||
  Ascii.eqb c "r" || Ascii.eqb c "t".

Definition consRaw (pre : string) (r : option (string * string)) : option (string * string) :=
  match r with
  | Some (raw, rest) => Some (pre ++ raw, rest)
  | None => None
  end.

(** The body of a string literal, after the opening quote: the text up
    to the closing quote, and what follows it. *)
Fixpoint lexString (s : string) : option (string * string) :=
  match s with
  | EmptyString => None
  | String c r =>
      if Ascii.eqb c dquote then Some (EmptyString, r)
      else if Ascii.eqb c backslash then
        match r with
        | EmptyString => None
        | String e r1 =>
            if isSimpleEscape e then
              consRaw (String c (String e EmptyString)) (lexString r1)
            else if Ascii.eqb e "u" then
              match r1 with
              | String h1 (String h2 (String h3 (String h4 r2))) =>
                  if isHex h1 && isHex h2 && isHex h3 && isHex h4 then
                    consRaw (String c (String e (String h1 (String h2
                              (String h3 (String h4 EmptyString))))))
                            (lexString r2)
                  else None
              | _ => None
              end
            else None
        end
      else if (nat_of_ascii c <? 32)%nat then None
      else consRaw (String c EmptyString) (lexString r)
  end.

(** [. digits], if any. *)
Definition lexFraction (s : string) : option (string * string) :=
  match s with
  | String c r =>
      if Ascii.eqb c "." then
        let '(ds, r') := digits r in
        if String.eqb ds "" then None else Some (String c ds, r')
      else Some (EmptyString, s)
  | EmptyString => Some (EmptyString, s)
  end.

(** [e sign digits], if any. *)
Definition lexExponent (s : string) : option (string * string) :=
  match s with
  | String c r =>
      if Ascii.eqb c "e" || Ascii.eqb c "E" then
        let '(sg, r1) :=
          match r with
          | String x r' =>
              if Ascii.eqb x "+" || Ascii.eqb x "-"
              then (String x EmptyString, r') else (EmptyString, r)
          | EmptyString => (EmptyString, r)
          end in
        let '(ds, r2) := digits r1 in
        if String.eqb ds "" then None else Some (String c (sg ++ ds), r2)
      else Some (EmptyString, s)
  | EmptyString => Some (EmptyString, s)
  end.

(** [-? (0 | [1-9] digits) fraction? exponent?]. *)
Definition lexNumber (s : string) : option (string * string) :=
  let '(sign, s1) :=
    match s with
    | String c r => if Ascii.eqb c "-" then (String c EmptyString, r) else (EmptyString, s)
    | EmptyString => (EmptyString, s)
    end in
  match s1 with
  | EmptyString => None
  | String d r =>
      if isDigit d then
        let '(int, s2) :=
          if Ascii.eqb d "0" then (String d EmptyString, r)
          else let '(ds, r') := digits r in (String d ds, r') in
        match lexFraction s2 with
        | None => None
        | Some (frac, s3) =>
            match lexExponent s3 with
            | None => None
            | Some (ex, s4) => Some (sign ++ int ++ frac ++ ex, s4)
            end
        end
      else None
  end.

(** [s] without its first [n] characters. *)
Fixpoint dropChars (n : nat) (s : string) : string :=
  match n, s with
  | O, _ => s
  | S n', String _ r => dropChars n' r
  | S _, EmptyString => EmptyString
  end.

Inductive Parsed (A : Type) :=
  | POk (a : A) (rest : string)
  | PSyntaxError
  | POutOfFuel.
Arguments POk {A} a rest.
Arguments PSyntaxError {A}.
Arguments POutOfFuel {A}.

(** One value at the head of [s]; the elements of an array after its
    opening bracket; the members of an object after its opening brace.
    Each call spends one unit of [fuel]. *)
Fixpoint parseValue (fuel : nat) (s : string) {struct fuel} : Parsed value :=
  match fuel with
  | O => POutOfFuel
  | S fuel' =>
      match skipWs s with
      | EmptyString => PSyntaxError
      | String c r =>
          if Ascii.eqb c "{" then
            match skipWs r with
            | String c' r' =>
                if Ascii.eqb c' "}" then POk (Object []) r'
                else parseMembers fuel' r []
            | EmptyString => PSyntaxError
            end
          else if Ascii.eqb c "[" then
            match skipWs r with
            | String c' r' =>
                if Ascii.eqb c' "]" then POk (Array []) r'
                else parseElements fuel' r []
            | EmptyString => PSyntaxError
            end
          else if Ascii.eqb c dquote then
            match lexString r with
            | Some (raw, rest) => POk (Str raw) rest
            | None => PSyntaxError
            end
          else if Ascii.eqb c "-" || isDigit c then
            match lexNumber (String c r) with
            | Some (lexeme, rest) => POk (Number lexeme) rest
            | None => PSyntaxError
            end
          else if JsString.startsWith "true" (String c r) then
            POk (Bool true) (dropChars 4 (String c r))
          else if JsString.startsWith "false" (String c r) then
            POk (Bool false) (dropChars 5 (String c r))
          else if JsString.startsWith "null" (String c r) then
            POk Null (dropChars 4 (String c r))
          else PSyntaxError
      end
  end
with parseElements (fuel : nat) (s : string) (acc : list value) {struct fuel}
  : Parsed value :=
  match fuel with
  | O => POutOfFuel
  | S fuel' =>
      match parseValue fuel' s with
      | POk v r =>
          match skipWs r with
          | String c r' =>
              if Ascii.eqb c "," then parseElements fuel' r' (v :: acc)
              else if Ascii.eqb c "]" then POk (Array (rev (v :: acc))) r'
              else PSyntaxError
          | EmptyString => PSyntaxError
          end
      | PSyntaxError => PSyntaxError
      | POutOfFuel => POutOfFuel
      end
  end
with parseMembers (fuel : nat) (s : string) (acc : list (string * value)) {struct fuel}
  : Parsed value :=
  match fuel with
  | O => POutOfFuel
  | S fuel' =>
      match skipWs s with
      | String c r =>
          if Ascii.eqb c dquote then
            match lexString r with
            | Some (key, r1) =>
                match skipWs r1 with
                | String c1 r2 =>
                    if Ascii.eqb c1 ":" then
                      match parseValue fuel' r2 with
                      | POk v r3 =>
                          match skipWs r3 with
                          | String c3 r4 =>
                              if Ascii.eqb c3 "," then
                                parseMembers fuel' r4 ((key, v) :: acc)
                              else if Ascii.eqb c3 "}" then
                                POk (Object (rev ((key, v) :: acc))) r4
                              else PSyntaxError
                          | EmptyString => PSyntaxError
                          end
                      | PSyntaxError => PSyntaxError
                      | POutOfFuel => POutOfFuel
                      end
                    else PSyntaxError
                | EmptyString => PSyntaxError
                end
            | None => PSyntaxError
            end
          else PSyntaxError
      | EmptyString => PSyntaxError
      end
  end.

(** Fuel that no text exhausts (see [parseValue_fuel]). *)
Definition fuelFor (s : string) : nat := 2 * String.length s + 1.

(** [JSON.parse(s)]: [None] is the [SyntaxError]. A value must be
    followed by white space only. *)
Definition parse (s : string) : option value :=
  match parseValue (fuelFor s) s with
  | POk v rest => if String.eqb (skipWs rest) "" then Some v else None
  | PSyntaxError => None
  | POutOfFuel => None
  end.

(** *** JSON.stringify on the values the handlers write *)

Definition hexDigit (n : nat) : ascii :=
  nth n (list_ascii_of_string "0123456789abcdef") "0"%char.

Definition escapeChar (c : ascii) : string :=
  let n := nat_of_ascii c in
  if Ascii.eqb c dquote then String backslash (String dquote EmptyString)
  else if Ascii.eqb c backslash then String backslash (String backslash EmptyString)
  else if (n =? 8)%nat then "\b"
  else if (n =? 12)%nat then "\f"
  else if (n =? 10)%nat then "\n"
  else if (n =? 13)%nat then "\r"
  else if (n =? 9)%nat then "\t"
  else if (n <? 32)%nat then
    "\u00" ++ String (hexDigit (n / 16)) (String (hexDigit (n mod 16)) EmptyString)
  else String c EmptyString.

Fixpoint escape (s : string) : string :=
  match s with
  | EmptyString => EmptyString
  | String c r => escapeChar c ++ escape r
  end.

(** [JSON.stringify(s)] for a string. *)
Definition quote (s : string) : string :=
  String dquote (escape s ++ String dquote EmptyString).

(** [JSON.stringify(n)] for an integer below 10^21 in size. *)
Definition ofInteger (n : Z) : string := pretty n.

Definition ofBool (b : bool) : string := if b then "true" else "false".

(** [l.join(sep)]. *)
Fixpoint join (sep : string) (l : list string) : string :=
  match l with
  | [] => EmptyString
  | [x] => x
  | x :: r => x ++ sep ++ join sep r
  end.

(** Every character of [s] is a digit. *)
Fixpoint allDigits (s : string) : bool :=
  match s with
  | EmptyString => true
  | String c r => isDigit c && allDigits r
  end.

(** What [parse] gives for the elements of a stringified array of
    strings. *)
Definition strs (l : list string) : list value :=
  List.map (fun x => Str (escape x)) l.

(** [JSON.stringify(l)] for an array of strings. *)
Definition ofStrings (l : list string) : string :=
  "[" ++ join "," (List.map quote l) ++ "]".

End Json.

(** ** App: the live meeting

    [participants] is a JavaScript array: [{ ...liveMeeting }] copies the
    reference, so the copy and the object held in React state share one
    array, and [push] is seen through both.  Arrays therefore live in a
    store of their own ([arrays]) and a [LiveMeeting] holds a location. *)

Module Meeting.
Import JsString.

(** The key of the shared record in [localStorage]. *)
Definition KEY : string := "devflow_live_meeting".

Record LiveMeeting := mk {
  id : string;
  hostId : string;
  hostName : string;
  topic : string;
  startTime : Z;
  isActive : bool;
  participants : positive
}.

(** One browsing context: its logged-in user, the [liveMeeting] cell of
    [App], its arrays, and the [localStorage] it shares with the other
    contexts of the origin. *)
Record State := mkState {
  user : option User;
  liveMeeting : option LiveMeeting;
  arrays : gmap positive (list string);
  localStorage : gmap string string
}.

(** The elements of [m.participants]. *)
Definition participantsOf (st : State) (m : LiveMeeting) : list string :=
  arrays st !!! participants m.

(** [JSON.stringify(meeting)], the array read from [arr]. *)
Definition stringify (arr : gmap positive (list string)) (m : LiveMeeting) : string :=
  "{" ++ Json.quote "id" ++ ":" ++ Json.quote (id m) ++ ","
      ++ Json.quote "hostId" ++ ":" ++ Json.quote (hostId m) ++ ","
      ++ Json.quote "hostName" ++ ":" ++ Json.quote (hostName m) ++ ","
      ++ Json.quote "topic" ++ ":" ++ Json.quote (topic m) ++ ","
      ++ Json.quote "startTime" ++ ":" ++ Json.ofInteger (startTime m) ++ ","
      ++ Json.quote "isActive" ++ ":" ++ Json.ofBool (isActive m) ++ ","
      ++ Json.quote "participants" ++ ":" ++ Json.ofStrings (arr !!! participants m)
      ++ "}".

(** What [Json.parse] gives for [stringify arr m]. *)
Definition parsed (arr : gmap positive (list string)) (m : LiveMeeting) : Json.value :=
  Json.Object
    [ ("id", Json.Str (Json.escape (id m)));
      ("hostId", Json.Str (Json.escape (hostId m)));
      ("hostName", Json.Str (Json.escape (hostName m)));
      ("topic", Json.Str (Json.escape (topic m)));
      ("startTime", Json.Number (Json.ofInteger (startTime m)));
      ("isActive", Json.Bool (isActive m));
      ("participants", Json.Array (Json.strs (arr !!! participants m))) ].

(** [array.includes(x)] on an array of strings. *)
Definition arrayIncludes (x : string) (l : list string) : bool :=
  existsb (String.eqb x) l.

(** [handleStartLiveMeeting(topic)]; [rid] and [now] are the random id
    and the clock reading. The array literal [[user.name]] is a new
    array. *)
Definition handleStartLiveMeeting (rid : string) (now : Z) (topic : string) (st : State) : State :=
  match user st with
  | None => st
  | Some u =>
      let a := fresh (dom (arrays st)) in
      let arr := <[a := [User.name u]]> (arrays st) in
      let meeting := mk rid (User.id u) (User.name u) topic now true a in
      {| user := user st;
         liveMeeting := Some meeting;
         arrays := arr;
         localStorage := <[KEY := stringify arr meeting]> (localStorage st) |}
  end.

(** [handleJoinLiveMeeting()]. [updatedMeeting] has the fields of
    [liveMeeting], its array included, so the value put in the state is
    the record it was; what changes is the array. *)
Definition handleJoinLiveMeeting (st : State) : State :=
  match user st, liveMeeting st with
  | Some u, Some m =>
      let updatedMeeting := m in
      if negb (arrayIncludes (User.name u) (arrays st !!! participants updatedMeeting)) then
        let arr := <[participants updatedMeeting :=
                       (arrays st !!! participants updatedMeeting ++ [User.name u])%list]>
                     (arrays st) in
        {| user := user st;
           liveMeeting := Some updatedMeeting;
           arrays := arr;
           localStorage := <[KEY := stringify arr updatedMeeting]> (localStorage st) |}
      else st
  | _, _ => st
  end.

(** [handleStopLiveMeeting()]. *)
Definition handleStopLiveMeeting (st : State) : State :=
  {| user := user st;
     liveMeeting := None;
     arrays := arrays st;
     localStorage := delete KEY (localStorage st) |}.

Definition setUser (u : option User) (st : State) : State :=
  {| user := u;
     liveMeeting := liveMeeting st;
     arrays := arrays st;
     localStorage := localStorage st |}.


(** One action of a browsing context on the meeting: a login or logout,
    or one of the three handlers. *)
Inductive step : State -> State -> Prop :=
  | step_login u st : step st (setUser u st)
  | step_start rid now topic st : step st (handleStartLiveMeeting rid now topic st)
  | step_join st : step st (handleJoinLiveMeeting st)
  | step_stop st : step st (handleStopLiveMeeting st).

Inductive reachable (st0 : State) : State -> Prop :=
  | reach_first : reachable st0 st0
  | reach_step st st' : reachable st0 st -> step st st' -> reachable st0 st'.

(** No name is listed twice in the meeting of the state. *)
Definition noDuplicates (st : State) : Prop :=
  forall m, liveMeeting st = Some m -> NoDup (participantsOf st m).

End Meeting.

(** ** MeetingRoom: the start and join button *)

Module Room.
Import JsString.

Inductive View := Lobby | Live | Summary.

(** The camera and microphone stream, once acquired. *)
Inductive MediaStream := mediaStream.

Record State := mkState {
  view : View;
  stream : option MediaStream;
  meetingTopic : string;
  error : option string
}.

Definition setError (e : option string) (r : State) : State :=
  {| view := view r; stream := stream r; meetingTopic := meetingTopic r; error := e |}.

Definition setView (v : View) (r : State) : State :=
  {| view := v; stream := stream r; meetingTopic := meetingTopic r; error := error r |}.

(** [liveMeeting && liveMeeting.isActive]. *)
Definition isMeetingActive (m : option Meeting.LiveMeeting) : bool :=
  match m with
  | Some x => Meeting.isActive x
  | None => false
  end.

(** What the lobby renders in its main panel: without a stream the
    button that asks for the camera; with a stream and an active
    meeting the join button; with a stream and no active meeting the
    start form for a host and a notice for the others. *)
Inductive LobbyPanel := EnableCamera | JoinSession | StartForm | WaitForHost.

Definition lobbyPanel (room : State) (app : Meeting.State) : LobbyPanel :=
  match stream room with
  | None => EnableCamera
  | Some _ =>
      if isMeetingActive (Meeting.liveMeeting app) then JoinSession
      else if Permission.isPrivileged (Meeting.user app) then StartForm
      else WaitForHost
  end.

(** [handleStartMeeting()], up to [setView('Live')]; the connection to
    the voice service that follows reads and writes neither
    [liveMeeting] nor [localStorage]. *)
Definition handleStartMeeting (rid : string) (now : Z) (room : State) (app : Meeting.State)
  : State * Meeting.State :=
  match Meeting.user app with
  | None => (room, app)
  | Some _ =>
      match stream room with
      | None =>
          (setError (Some "Camera must be enabled before joining the secure uplink.") room, app)
      | Some _ =>
          let isHost := Permission.isPrivileged (Meeting.user app) in
          let shouldStartNew := isHost && negb (isMeetingActive (Meeting.liveMeeting app)) in
          if shouldStartNew then
            if negb (truthy (trim (meetingTopic room))) then
              (setError (Some "Please define a meeting topic.") room, app)
            else
              (setView Live room,
               Meeting.handleStartLiveMeeting rid now (meetingTopic room) app)
          else
            (setView Live room, Meeting.handleJoinLiveMeeting app)
      end
  end.

End Room.

(** ** The cell of a context and the shared record *)

Module Shared.
Import Meeting.

(** The record in [localStorage] is the text of the meeting in the
    cell, and there is none when the cell is empty. *)
Definition inSync (st : State) : Prop :=
  localStorage st !! KEY = stringify (arrays st) <$> liveMeeting st.

(** The cell as [JSON.parse] gives it to a context that polls. *)
Definition cellValue (st : State) : Json.value :=
  match liveMeeting st with
  | Some m => parsed (arrays st) m
  | None => Json.Null
  end.

(** The first name listed is the host's. *)
Definition hostFirst (st : State) : Prop :=
  forall m, liveMeeting st = Some m -> head (participantsOf st m) = Some (hostName m).

End Shared.

(** ** App: polling the shared record *)

Module Poll.
Import JsString.

(** How one run of [checkMeeting] ends. *)
Inductive Completion :=
  | Returned
  | ThrownSyntaxError.

(** [checkMeeting()]: the argument is the value of the [liveMeeting]
    cell before the call, as [JSON.parse] would have produced it
    ([Json.Null] is [null]); the result is the value after it. Nothing
    is written to [localStorage]. *)
Definition checkMeeting (localStorage : gmap string string) (liveMeeting : Json.value)
  : Json.value * Completion :=
  match localStorage !! Meeting.KEY with
  | Some stored =>
      if truthy stored then
        match Json.parse stored with
        | Some v => (v, Returned)
        | None => (liveMeeting, ThrownSyntaxError)
        end
      else (Json.Null, Returned)
  | None => (Json.Null, Returned)
  end.





(** [checkMeeting(); setInterval(checkMeeting, 1000)]: the time, in
    milliseconds, of poll number [k] of a context mounted at [mounted],
    on the timer's nominal schedule. *)
Definition INTERVAL : Z := 1000.

Definition pollTime (mounted : Z) (k : nat) : Z := mounted + INTERVAL * Z.of_nat k.



End Poll.

(** ** TaskBoard and StatusColumn: the columns and the drop *)

Module Board.
Import App.

(** [tasks.filter(t => t.projectId === activeProjectId)]. *)
Definition projectTasks (st : State) : list Task :=
  List.filter (fun t => String.eqb (Task.projectId t) (activeProjectId st)) (tasks st).

(** [projectTasks.filter(t => t.status === status)], the cards of one
    column. *)
Definition column (status : TaskStatus) (st : State) : list Task :=
  List.filter (fun t => bool_decide (Task.status t = status)) (projectTasks st).

(** [projects.find(p => p.id === activeProjectId)]. *)
Definition activeProject (st : State) : option Project :=
  List.find (fun p => String.eqb (Project.id p) (activeProjectId st)) (projects st).

(** What a drop reads with [getData('taskId')] after a drag of this
    card: [onDragStart] stores the id only when [canDrag] holds, and a
    missing entry reads as the empty string. *)
Definition dragData (u : option User) (task : Task) : string :=
  if Permission.canDrag u task then Task.id task else EmptyString.

(** [handleDrop] of the column for [status]:
    [if (taskId) onStatusChange(taskId, status)]. *)
Definition handleDrop (status : TaskStatus) (taskId : string) (st : State) : State :=
  if JsString.truthy taskId then handleStatusChange taskId status st else st.

End Board.

(** ** Dashboard: the chart data *)

Module Dashboard.

Record Slice := mkSlice { name : string; value : nat; color : string }.

(** [tasks.filter(t => t.status === s).length]. *)
Definition countStatus (s : TaskStatus) (tasks : list Task) : nat :=
  length (List.filter (fun t => bool_decide (Task.status t = s)) tasks).

(** [statusData]: the four slices, the empty ones left out. *)
Definition statusData (tasks : list Task) : list Slice :=
  List.filter (fun d => (0 <? value d)%nat)
    [ mkSlice "Pending" (countStatus TODO tasks) "#52525b";
      mkSlice "Active" (countStatus IN_PROGRESS tasks) "#3b82f6";
      mkSlice "Verify" (countStatus REVIEW tasks) "#f59e0b";
      mkSlice "Complete" (countStatus DONE tasks) "#22c55e" ].

(** The string value of a [TaskCategory] member. *)
Definition categoryName (c : TaskCategory) : string :=
  match c with
  | FRONTEND => "FRONTEND"
  | API => "API"
  | DEVOPS => "DEVOPS"
  | DESIGN => "DESIGN"
  | GENERAL => "GENERAL"
  end.

(** [Object.values(TaskCategory)], in declaration order. *)
Definition categories : list TaskCategory := [FRONTEND; API; DEVOPS; DESIGN; GENERAL].

Record Bar := mkBar { barName : string; barValue : nat }.

(** [tasks.filter(t => t.category === cat).length]. *)
Definition countCategory (c : TaskCategory) (tasks : list Task) : nat :=
  length (List.filter (fun t => bool_decide (Task.category t = c)) tasks).

(** [categoryData]: one bar per category, the empty ones left out. *)
Definition categoryData (tasks : list Task) : list Bar :=
  List.filter (fun d => (0 <? barValue d)%nat)
    (List.map (fun cat => mkBar (categoryName cat) (countCategory cat tasks)) categories).

End Dashboard.

(** ** TaskModal: filling the form when the dialog opens *)

Module TaskForm.

(** [resetForm()]: the fields of an empty form. *)
Definition resetForm : TaskModal.Form :=
  TaskModal.mkForm "" "" FRONTEND MEDIUM "" TODO [] 4 "".

(** The fields taken from [taskToEdit]: [estimatedHours || 4],
    [technicalPlan || ''], [acceptanceCriteria || []] (an array is
    truthy, so it is kept). *)
Definition loadForm (t : Task) : TaskModal.Form :=
  TaskModal.mkForm (Task.title t) (Task.description t) (Task.category t)
    (Task.priority t) (Task.assignee t) (Task.status t)
    (Task.acceptanceCriteria t)
    (if Z.eqb (Task.estimatedHours t) 0 then 4 else Task.estimatedHours t)
    (match Task.technicalPlan t with
     | Some p => p
     | None => EmptyString
     end).

(** The effect on [isOpen, taskToEdit]: the form shown once the dialog
    is open. *)
Definition openForm (st : App.State) : TaskModal.Form :=
  match App.taskToEdit st with
  | Some t => loadForm t
  | None => resetForm
  end.

End TaskForm.

(** ** App: the chat *)

Module Chat.
Import JsString.

Inductive Role := user | model.

Record AIMessage := mkMessage { role : Role; text : string; timestamp : Z }.

(** The chat cells of [App]. *)
Record State := mkState {
  chatMessages : list AIMessage;
  chatInput : string;
  isChatLoading : bool
}.

(** The first render. [loaded] is the clock reading then. *)
Definition initial (loaded : Z) : State :=
  mkState
    [mkMessage model "Ready for duty. How can I assist with the mission objectives?" loaded]
    "" false.

(** One entry of the history sent to the service:
    [{ role, parts: [{ text }] }]. *)
Record HistoryEntry := mkEntry { entryRole : Role; parts : list string }.

(** What [chatWithTechLead] is called with. *)
Record Request := mkRequest { history : list HistoryEntry; message : string }.

(** How the call ends: with [result.text], which may be missing, or
    with a rejection. *)
Inductive Outcome :=
  | Resolved (responseText : option string)
  | Rejected.

(** [reduce((acc, t) => acc + (t.estimatedHours || 0), 0)]. *)
Definition sumHours (l : list Task) : Z :=
  fold_left (fun acc t => acc + Task.estimatedHours t) l 0.

Definition newline : string := String (ascii_of_nat 10) EmptyString.

(** The summary put before the query when the input mentions "status"
    or "tasks". *)
Definition summary (app : App.State) : string :=
  let activeProjectName :=
    match Board.activeProject app with
    | Some p => if truthy (Project.name p) then Project.name p else "Unknown Project"
    | None => "Unknown Project"
    end in
  let projectTasks := Board.projectTasks app in
  let remainingHours :=
    sumHours (List.filter (fun t => negb (bool_decide (Task.status t = DONE))) projectTasks) in
  "Mission: " ++ activeProjectName ++ ". Status: " ++
  pretty (length projectTasks) ++ " objectives. " ++
  pretty (length (List.filter (fun t => bool_decide (Task.status t = DONE)) projectTasks)) ++
  " completed. Estimated Remaining Work: " ++ pretty remainingHours ++ " hours.".

(** [contextPrompt]. *)
Definition contextPrompt (app : App.State) (chatInput : string) : string :=
  if includes "status" (toLowerCase chatInput) || includes "tasks" (toLowerCase chatInput)
  then summary app ++ newline ++ newline ++ "Operative Query: " ++ chatInput
  else chatInput.

(** [handleSendMessage], up to the call of the service: [None] when it
    returns at once on a blank input. The history is taken from the
    messages the handler's render had, the new one not among them. *)
Definition sendStart (now : Z) (app : App.State) (chat : State) : option (State * Request) :=
  if negb (truthy (trim (chatInput chat))) then None
  else
    let userMsg := mkMessage user (chatInput chat) now in
    Some
      ({| chatMessages := (chatMessages chat ++ [userMsg])%list;
          chatInput := "";
          isChatLoading := true |},
       {| history := List.map (fun m => mkEntry (role m) [text m]) (chatMessages chat);
          message := contextPrompt app (chatInput chat) |}).

(** [handleSendMessage], from the end of the call on: the reply if
    there is one, the fixed notice on a rejection, then [finally]. *)
Definition sendFinish (outcome : Outcome) (now : Z) (chat : State) : State :=
  let messages :=
    match outcome with
    | Resolved (Some responseText) =>
        if truthy responseText
        then (chatMessages chat ++ [mkMessage model responseText now])%list
        else chatMessages chat
    | Resolved None => chatMessages chat
    | Rejected =>
        (chatMessages chat ++
         [mkMessage model "Connection interrupted. Secure link failed." now])%list
    end in
  {| chatMessages := messages;
     chatInput := chatInput chat;
     isChatLoading := false |}.

End Chat.

(** ** MeetingRoom: the call timer *)

Module Clock.

(** [s.padStart(2, '0')]. *)
Definition padStart2 (s : string) : string :=
  match s with
  | EmptyString => "00"
  | String c EmptyString => String "0" s
  | _ => s
  end.

(** [formatTime(seconds)] for a whole number of seconds from 0 up to
    [Number.MAX_SAFE_INTEGER] ([elapsed] is one: a difference of two
    clock readings divided by 1000 and rounded down). There
    [Math.floor(seconds / 60)] is the quotient rounded down,
    [seconds % 60] the remainder, and the text of each is its decimal
    text. *)
Definition formatTime (seconds : Z) : string :=
  let mins := seconds / 60 in
  let secs := Z.rem seconds 60 in
  pretty mins ++ ":" ++ padStart2 (pretty secs).

(** The value of a two-digit text, for reading [formatTime] back. *)
Definition digitValue (c : ascii) : Z := Z.of_nat (nat_of_ascii c) - 48.

Definition twoDigitValue (s : string) : option Z :=
  match s with
  | String a (String b EmptyString) =>
      if Json.isDigit a && Json.isDigit b
      then Some (10 * digitValue a + digitValue b) else None
  | _ => None
  end.

End Clock.

(** ** The estimate service: the history put in the prompt *)

Module Prompt.

(** [s.substring(0, n)]. *)
Fixpoint substring0 (n : nat) (s : string) : string :=
  match n, s with
  | S n', String c r => String c (substring0 n' r)
  | _, _ => EmptyString
  end.

(** [history.filter(t => t.estimatedHours && t.estimatedHours > 0)
       .slice(-5)]. *)
Definition relevantTasks (history : list Task) : list Task :=
  let withHours := List.filter (fun t => 0 <? Task.estimatedHours t) history in
  skipn (length withHours - 5) withHours.

(** One line of the list. *)
Definition taskLine (t : Task) : string :=
  "- Task: " ++ String Json.dquote (Task.title t ++ String Json.dquote
  (" (" ++ Dashboard.categoryName (Task.category t) ++ ") -> Took " ++
   pretty (Task.estimatedHours t) ++ "h. Desc: " ++
   substring0 50 (Task.description t) ++ "...")).

(** [formatTaskHistoryForPrompt(history)]. *)
Definition formatTaskHistoryForPrompt (history : list Task) : string :=
  match history with
  | [] => EmptyString
  | _ =>
      match relevantTasks history with
      | [] => EmptyString
      | relevant =>
          Chat.newline ++
          "    TRAINING DATA (Historical Team Velocity & Estimates):" ++ Chat.newline ++
          "    " ++ Json.join Chat.newline (List.map taskLine relevant) ++ Chat.newline ++
          "    " ++ Chat.newline ++
          "    INSTRUCTION: Use the historical data above to calibrate your estimate. If the new task is similar to a previous one, align the hours." ++ Chat.newline ++
          "    "
      end
  end.

End Prompt.

(** ** MeetingRoom: camera, clean-up and the end of a session

    [cameraOn] says that the tracks of the acquired stream are live;
    the refs hold what [connectToGemini] set up. *)

Module Live.

Record Refs := mkRefs {
  frameInterval : option nat;
  inputContext : bool;
  audioContext : bool;
  sources : nat;
  sessionPromise : bool
}.

Record State := mkState {
  room : Room.State;
  isLive : bool;
  cameraOn : bool;
  refs : Refs
}.

(** How [getUserMedia] ends. *)
Inductive Permission := Granted | Denied.

Definition setRoom (r : Room.State) (s : State) : State :=
  {| room := r; isLive := isLive s; cameraOn := cameraOn s; refs := refs s |}.

Definition setStream (m : option Room.MediaStream) (r : Room.State) : Room.State :=
  {| Room.view := Room.view r; Room.stream := m;
     Room.meetingTopic := Room.meetingTopic r; Room.error := Room.error r |}.

(** [startCamera()]. *)
Definition startCamera (p : Permission) (s : State) : State :=
  match p with
  | Granted =>
      {| room := setStream (Some Room.mediaStream) (Room.setError None (room s));
         isLive := isLive s; cameraOn := true; refs := refs s |}
  | Denied =>
      setRoom
        (Room.setError
           (Some "Could not access camera/microphone. Please check permissions.")
           (room s)) s
  end.

(** [stopCamera()] as written in one render: [captured] is the value
    [stream] had in that render. *)
Definition stopCamera (captured : option Room.MediaStream) (s : State) : State :=
  match captured with
  | Some _ =>
      {| room := setStream None (room s);
         isLive := isLive s; cameraOn := false; refs := refs s |}
  | None => s
  end.

(** [cleanup()]: the timer is cleared, the audio contexts are closed,
    the sources are stopped, and every ref is emptied. *)
Definition cleanup (s : State) : State :=
  {| room := room s; isLive := isLive s; cameraOn := cameraOn s;
     refs := mkRefs None false false 0 false |}.

(** [view === 'Live']. *)
Definition inLiveView (r : Room.State) : bool :=
  match Room.view r with
  | Room.Live => true
  | _ => false
  end.

(** The effect on [liveMeeting, view]: it runs in the render whose
    values it tests, so [stopCamera] sees the stream of the state. *)
Definition onMeetingChange (liveMeeting : option Meeting.LiveMeeting) (s : State)
  : State * list App.Event :=
  if inLiveView (room s) && negb (Room.isMeetingActive liveMeeting)
  then
    let s1 := {| room := room s; isLive := false; cameraOn := cameraOn s; refs := refs s |} in
    let s2 := stopCamera (Room.stream (room s)) (cleanup s1) in
    (setRoom (Room.setView Room.Lobby (room s2)) s2,
     [App.Alert "The secure session has been terminated by the host."])
  else (s, []).


(** The first render: the lobby, no stream, nothing set up. *)
Definition initial : State :=
  mkState (Room.mkState Room.Lobby None "" None) false false
    (mkRefs None false false 0 false).

(** What happens in a mounted room, as far as the stream goes. The
    component calls [setStream] in [startCamera] and [stopCamera] only,
    and stops tracks in [stopCamera] only; apart from the clean-up of
    the mount effect, [stopCamera] is called by the effect on
    [liveMeeting] and by handlers of the current render, where
    [stream] is the stream of the state. Every other update leaves the
    stream and its tracks as they are. *)
Inductive step : State -> State -> Prop :=
  | step_startCamera p s :
      step s (startCamera p s)
  | step_stopCamera s :
      step s (stopCamera (Room.stream (room s)) s)
  | step_meetingChange liveMeeting s :
      step s (fst (onMeetingChange liveMeeting s))
  | step_other s s' :
      Room.stream (room s') = Room.stream (room s) ->
      cameraOn s' = cameraOn s ->
      step s s'.

Inductive reachable : State -> Prop :=
  | reach_initial : reachable initial
  | reach_step s s' : reachable s -> step s s' -> reachable s'.

(** [handleTerminateSession()]; [confirm] is the answer to the dialog. *)
Definition handleTerminateSession (confirm : string -> bool) (app : Meeting.State)
  : Meeting.State * list App.Event :=
  let q := "WARNING: This will disconnect all participants and delete the session. Proceed?" in
  if confirm q then (Meeting.handleStopLiveMeeting app, [App.Confirm q])
  else (app, [App.Confirm q]).

End Live.

(** ** AuthContext: the demo accounts *)

Module Auth.

Definition admin : User :=
  User.mk "u1" "Yassine Admin" "admin@devflow.com" ADMIN
    "https://api.dicebear.com/7.x/avataaars/svg?seed=Yassine".

Definition manager : User :=
  User.mk "u2" "Sarah Manager" "manager@devflow.com" MANAGER
    "https://api.dicebear.com/7.x/avataaars/svg?seed=Sarah".

Definition employee : User :=
  User.mk "u3" "Mike Developer" "employee@devflow.com" EMPLOYEE
    "https://api.dicebear.com/7.x/avataaars/svg?seed=Mike".

(** [MOCK_USERS], keyed by e-mail address. *)
Definition MOCK_USERS : gmap string User :=
  <["admin@devflow.com" := admin]>
    (<["manager@devflow.com" := manager]>
       (<["employee@devflow.com" := employee]> empty)).

End Auth.

(** ** Sample data for the examples *)

Module Sample.

(** An employee whose first name extends an assignee's. *)
Definition mikey : User :=
  User.mk "u4" "Mikey Developer" "mikey@devflow.com" EMPLOYEE "".

(** The second and the first of [INITIAL_TASKS]. *)
Definition checkout : Task :=
  Task.mk "t2" "p1" "Checkout API Integration"
    "Integrate Stripe Payment Intents API for secure checkout."
    IN_PROGRESS API "Mike" HIGH
    ["Payment intent created"; "Webhook handler setup"]
    8 None (-100000000).

Definition listing : Task :=
  Task.mk "t1" "p1" "Product Listing Page (PLP)"
    "Implement grid layout with filtering and sorting for products."
    DONE FRONTEND "Sarah" HIGH
    ["Filters work"; "Responsive grid"; "Load more pagination"]
    12 None (-200000000).

Definition draftA : App.TaskData :=
  App.mkTaskData "Write release notes" "Summarise the sprint." GENERAL MEDIUM
    "Sarah" TODO [] 4 (Some "").

Definition draftB : App.TaskData :=
  App.mkTaskData "Rotate API keys" "Replace the staging credentials." DEVOPS HIGH
    "Mike" IN_PROGRESS ["Old keys revoked"] 2 (Some "").

(** A context where the manager is logged in and no meeting runs. *)
Definition lobby : Meeting.State :=
  Meeting.mkState (Some Auth.manager) None empty empty.

Definition cameraOn (topic : string) : Room.State :=
  Room.mkState Room.Lobby (Some Room.mediaStream) topic None.

Definition cameraOff (topic : string) : Room.State :=
  Room.mkState Room.Lobby None topic None.

(** The manager has started a meeting. *)
Definition started : Meeting.State :=
  Meeting.handleStartLiveMeeting "m1" 1700000000000 "Sprint Review" lobby.

Definition sprintReview : Meeting.LiveMeeting :=
  Meeting.mk "m1" "u2" "Sarah Manager" "Sprint Review" 1700000000000 true 1.

(** The same context after the employee has logged in there. *)
Definition visited : Meeting.State :=
  Meeting.setUser (Some Auth.employee) started.



End Sample.

(** * Properties *)

(** ** Strings *)

Module JsStringFacts.
Import JsString.

Lemma startsWith_spec (p s : string) :
  startsWith p s = true <-> exists r, s = p ++ r.
Proof.
  revert s. induction p as [|a p IH]; intros s; simpl.
  - split; [intros _; exists s; reflexivity | reflexivity].
  - destruct s as [|b s].
    + split; [discriminate | intros [r Hr]; discriminate].
    + rewrite andb_true_iff, Ascii.eqb_eq, IH. split.
      * intros [-> [r ->]]. exists r. reflexivity.
      * intros [r Hr]. injection Hr as -> ->. split; [reflexivity | exists r; reflexivity].
Qed.

(** [includes] decides the substring relation. *)
Lemma includes_spec (needle hay : string) :
  includes needle hay = true <-> exists a b, hay = a ++ needle ++ b.
Proof.
  induction hay as [|c r IH]; simpl.
  - rewrite orb_false_r, startsWith_spec. split.
    + intros [b Hb]. exists "", b. exact Hb.
    + intros [a [b Hab]]. destruct a; [exists b; exact Hab | discriminate].
  - rewrite orb_true_iff, startsWith_spec, IH. split.
    + intros [[b Hb] | [a [b Hab]]].
      * exists "", b. exact Hb.
      * exists (String c a), b. simpl. rewrite Hab. reflexivity.
    + intros [a [b Hab]]. destruct a as [|c' a]; simpl in Hab.
      * left. exists b. exact Hab.
      * right. injection Hab as _ ->. exists a, b. reflexivity.
Qed.

Lemma includes_empty (hay : string) : includes "" hay = true.
Proof. destruct hay; reflexivity. Qed.

Lemma split_nonempty (sep : ascii) (s : string) : split sep s <> [].
Proof.
  induction s as [|c r IH]; simpl; [discriminate|].
  destruct (Ascii.eqb c sep); [discriminate|].
  destruct (split sep r); [contradiction | discriminate].
Qed.

(** [s.split(sep)[0]] is the text of [s] before its first [sep]. *)
Lemma split_head (sep : ascii) (s : string) :
  let first := hd "" (split sep s) in
  (s = first \/ exists rest, s = first ++ String sep rest) /\
  includes (String sep "") first = false.
Proof.
  induction s as [|c r IH]; simpl.
  - split; [left; reflexivity | reflexivity].
  - destruct (Ascii.eqb c sep) eqn:E; simpl.
    + apply Ascii.eqb_eq in E. subst c. split; [|reflexivity].
      right. exists r. reflexivity.
    + simpl in IH. destruct (split sep r) as [|h t] eqn:Hs.
      { exfalso. exact (split_nonempty sep r Hs). }
      simpl in *. destruct IH as [Hpre Hno]. split.
      * destruct Hpre as [-> | [rest ->]]; [left; reflexivity|].
        right. exists rest. reflexivity.
      * rewrite Ascii.eqb_sym, E. simpl.
        destruct h; simpl in *; exact Hno.
Qed.

Lemma truthy_spec (s : string) : truthy s = true <-> s <> "".
Proof.
  unfold truthy. rewrite negb_true_iff. split.
  - intros H ->. discriminate.
  - intros H. apply String.eqb_neq. exact H.
Qed.

End JsStringFacts.

(** ** Permission policy *)

Module PermissionFacts.
Import JsString JsStringFacts Permission.

(** The scenario of the specification: Mike Developer may drag a task
    assigned to Mike and may not drag one assigned to Sarah. *)
Example canDrag_mike_own : canDrag (Some Auth.employee) Sample.checkout = true.
Proof. reflexivity. Qed.

Example canDrag_mike_other : canDrag (Some Auth.employee) Sample.listing = false.
Proof. reflexivity. Qed.

(** C1, as stated, fails: for the employee Mikey Developer and a task
    assigned to Mike the symmetric match of the specification holds
    (the assignee is a substring of the first name) and the task is not
    draggable. *)
Lemma canDrag_not_symmetric :
  fuzzyMatch_spec Sample.mikey Sample.checkout = true /\
  canDrag (Some Sample.mikey) Sample.checkout = false.
Proof. split; reflexivity. Qed.

(** The team page and the board do not use one rule: the team page
    lists that task for Mikey, who may not drag it. *)
Example teamBoard_lists_undraggable :
  teamBoardMine Sample.mikey Sample.checkout = true /\
  canDrag (Some Sample.mikey) Sample.checkout = false.
Proof. split; reflexivity. Qed.

(** C1, amended: an ADMIN or MANAGER may drag every task; an EMPLOYEE may
    drag a task exactly when the user's name is not empty and the
    lower-cased first token of the name (the text before the first
    space) is a substring of the lower-cased assignee. The match is in
    this one direction only. *)
Theorem canDrag_policy (u : User) (t : Task) :
  (User.role u <> EMPLOYEE -> canDrag (Some u) t = true) /\
  (User.role u = EMPLOYEE ->
   (canDrag (Some u) t = true <->
    User.name u <> "" /\
    exists a b,
      toLowerCase (Task.assignee t) =
      a ++ toLowerCase (hd "" (split " " (User.name u))) ++ b)).
Proof.
  unfold canDrag, notEmployee, isAssignee. split; intros Hrole.
  - rewrite bool_decide_eq_false_2 by exact Hrole. reflexivity.
  - rewrite bool_decide_eq_true_2 by exact Hrole. simpl.
    rewrite andb_true_iff, truthy_spec, includes_spec. reflexivity.
Qed.

(** The rule of the code is the narrower one: what it accepts, the
    symmetric rule accepts. *)
Lemma isAssignee_fuzzyMatch (u : User) (t : Task) :
  isAssignee (Some u) t = true -> fuzzyMatch_spec u t = true.
Proof.
  unfold isAssignee, fuzzyMatch_spec. rewrite andb_true_iff.
  intros [_ H]. rewrite H. reflexivity.
Qed.

Lemma canDrag_policy_witness :
  canDrag (Some Auth.manager) Sample.checkout = true /\
  canDrag (Some Auth.employee) Sample.checkout = true.
Proof.
  split.
  - apply (proj1 (canDrag_policy Auth.manager Sample.checkout)). discriminate.
  - apply (proj2 (canDrag_policy Auth.employee Sample.checkout) eq_refl).
    split; [discriminate|]. exists "", "". reflexivity.
Defined.

End PermissionFacts.

(** ** Tasks and projects *)

Module AppFacts.
Import App.

Lemma lookup_map {A B} (f : A -> B) (l : list A) (i : nat) :
  List.map f l !! i = f <$> (l !! i).
Proof.
  revert i. induction l as [|x l IH]; intros [|i]; simpl; try reflexivity.
  apply IH.
Qed.

Lemma map_id_when {A} (f : A -> A) (l : list A) :
  Forall (fun x => f x = x) l -> List.map f l = l.
Proof. induction 1; simpl; congruence. Qed.

Lemma findTask_app_fresh (i : string) (l : list Task) (t : Task) :
  Forall (fun x => Task.id x <> i) l -> Task.id t = i ->
  findTask i (l ++ [t])%list = Some t.
Proof.
  unfold findTask. intros Hl Ht. induction Hl as [|x l Hx _ IH]; simpl.
  - rewrite Ht, String.eqb_refl. reflexivity.
  - apply String.eqb_neq in Hx. rewrite Hx. exact IH.
Qed.

(** C3: for an EMPLOYEE, [handleDeleteTask] returns the state it was
    given, tasks included, and shows the clearance notice and nothing
    else: the confirmation dialog is not opened and its answer is not
    read, and no task is removed. *)
Theorem handleDeleteTask_employee
  (confirm : string -> bool) (taskId : string) (st : State) (u : User) :
  user st = Some u -> User.role u = EMPLOYEE ->
  handleDeleteTask confirm taskId st =
    (st, [Alert "Clearance Level Insufficient: Cannot delete objectives."]) /\
  tasks (fst (handleDeleteTask confirm taskId st)) = tasks st /\
  forall q, Confirm q ∉ snd (handleDeleteTask confirm taskId st).
Proof.
  intros Hu Hrole. unfold handleDeleteTask, isEmployee.
  rewrite Hu, bool_decide_eq_true_2 by exact Hrole. simpl.
  split; [reflexivity|]. split; [reflexivity|].
  intros q Hq. apply list_elem_of_singleton in Hq. discriminate.
Qed.

Lemma handleDeleteTask_employee_witness :
  handleDeleteTask (fun _ => true) "t2" (initial (Some Auth.employee) 0) =
    (initial (Some Auth.employee) 0,
     [Alert "Clearance Level Insufficient: Cannot delete objectives."]).
Proof.
  exact (proj1 (handleDeleteTask_employee (fun _ => true) "t2"
                  (initial (Some Auth.employee) 0) Auth.employee eq_refl eq_refl)).
Defined.

(** The sibling path: a manager who confirms removes the task. *)
Example handleDeleteTask_manager :
  List.map Task.id
    (tasks (fst (handleDeleteTask (fun _ => true) "t2" (initial (Some Auth.manager) 0)))) =
  ["t1"; "t3"; "t4"; "t5"; "t6"; "t7"; "t8"].
Proof. reflexivity. Qed.

(** C7: saving while a task is being edited merges the submitted fields
    into every stored task with the edited task's id, keeps its [id],
    [projectId] and [createdAt], keeps every other task and the order
    of the list, and changes nothing when no stored task has that id.
    Projects and the active project are not touched. *)
Theorem handleSaveTask_edit
  (rid : string) (now : Z) (d : TaskData) (st : State) (e : Task) :
  taskToEdit st = Some e ->
  let st' := handleSaveTask rid now d st in
  length (tasks st') = length (tasks st) /\
  (forall i t, tasks st !! i = Some t -> Task.id t <> Task.id e ->
               tasks st' !! i = Some t) /\
  (forall i t, tasks st !! i = Some t -> Task.id t = Task.id e ->
     exists t', tasks st' !! i = Some t' /\
       Task.id t' = Task.id t /\
       Task.projectId t' = Task.projectId t /\
       Task.createdAt t' = Task.createdAt t /\
       Task.title t' = title d /\
       Task.description t' = description d /\
       Task.category t' = category d /\
       Task.priority t' = priority d /\
       Task.assignee t' = assignee d /\
       Task.status t' = status d /\
       Task.acceptanceCriteria t' = acceptanceCriteria d /\
       Task.estimatedHours t' = estimatedHours d /\
       Task.technicalPlan t' = technicalPlan d) /\
  (Forall (fun t => Task.id t <> Task.id e) (tasks st) -> tasks st' = tasks st) /\
  projects st' = projects st /\
  activeProjectId st' = activeProjectId st.
Proof.
  intros He. unfold handleSaveTask. rewrite He. simpl.
  split; [apply length_map|].
  split.
  { intros i t Hi Hne. rewrite lookup_map, Hi. simpl.
    apply String.eqb_neq in Hne. rewrite Hne. reflexivity. }
  split.
  { intros i t Hi Heq. rewrite lookup_map, Hi. simpl.
    apply String.eqb_eq in Heq. rewrite Heq.
    eexists. split; [reflexivity|]. simpl. repeat split. }
  split; [|split; reflexivity].
  intros Hall. apply map_id_when.
  eapply Forall_impl; [exact Hall|]. intros t Hne. simpl in Hne.
  apply String.eqb_neq in Hne. rewrite Hne. reflexivity.
Qed.

(** The form's submit is that save followed by closing the dialog. *)
Lemma handleSubmit_save (rid : string) (now : Z) (f : TaskModal.Form) (st : State) :
  tasks (TaskModal.handleSubmit rid now f st) =
    tasks (handleSaveTask rid now (TaskModal.taskData f) st) /\
  projects (TaskModal.handleSubmit rid now f st) = projects st /\
  isModalOpen (TaskModal.handleSubmit rid now f st) = false /\
  taskToEdit (TaskModal.handleSubmit rid now f st) = None.
Proof.
  unfold TaskModal.handleSubmit, handleSaveTask.
  destruct (taskToEdit st); repeat split.
Qed.

Lemma handleSaveTask_edit_witness :
  let st := openEditTaskModal Sample.checkout (initial (Some Auth.manager) 0) in
  length (tasks (handleSaveTask "" 0 Sample.draftB st)) = length (tasks st).
Proof.
  exact (proj1 (handleSaveTask_edit "" 0 Sample.draftB
                  (openEditTaskModal Sample.checkout (initial (Some Auth.manager) 0))
                  Sample.checkout eq_refl)).
Defined.

(** C6, as stated, fails: the new id is the string the random source
    gives and is not compared with the ids in use. When the source
    gives the same string twice ("i" is what the expression yields for
    0.5), the second task takes an id already in the store, ids are no
    longer unique, and a lookup by that id finds the first task. *)
Lemma createTask_id_collision :
  let st1 := handleSaveTask "i" 1700000000000 Sample.draftA (initial (Some Auth.manager) 0) in
  let st2 := handleSaveTask "i" 1700000000500 Sample.draftB st1 in
  taskToEdit st1 = None /\
  "i" ∈ List.map Task.id (tasks st1) /\
  ~ NoDup (List.map Task.id (tasks st2)) /\
  findTask "i" (tasks st2) = Some (newTask "i" 1700000000000 "p1" Sample.draftA) /\
  findTask "i" (tasks st2) <> Some (newTask "i" 1700000000500 "p1" Sample.draftB).
Proof.
  cbv zeta. split; [reflexivity|]. split.
  { apply list_elem_of_In. vm_compute. tauto. }
  split.
  { intros H. vm_compute in H. rewrite !NoDup_cons in H.
    destruct H as (_ & _ & _ & _ & _ & _ & _ & _ & H & _).
    apply H. constructor. }
  split; [reflexivity | discriminate].
Qed.

(** C6, amended: saving while no task is being edited appends one task
    at the end of the store; its id is the string the random source
    gave, its [projectId] is the active project id of that moment, its
    [createdAt] is the clock reading taken in the call, and the other
    fields are the submitted ones. The id is not checked against the
    ids in use: ids stay unique exactly when the string is not in the
    store yet, and in that case a lookup by the id finds the new task.
    Projects and the active project are not touched. *)
Theorem handleSaveTask_create
  (rid : string) (now : Z) (d : TaskData) (st : State) :
  taskToEdit st = None ->
  let st' := handleSaveTask rid now d st in
  let t := newTask rid now (activeProjectId st) d in
  tasks st' = (tasks st ++ [t])%list /\
  Task.id t = rid /\
  Task.projectId t = activeProjectId st /\
  Task.createdAt t = now /\
  (Task.title t = title d /\ Task.description t = description d /\
   Task.category t = category d /\ Task.priority t = priority d /\
   Task.assignee t = assignee d /\ Task.status t = status d /\
   Task.acceptanceCriteria t = acceptanceCriteria d /\
   Task.estimatedHours t = estimatedHours d /\
   Task.technicalPlan t = technicalPlan d) /\
  (Forall (fun x => Task.id x <> rid) (tasks st) ->
   findTask rid (tasks st') = Some t) /\
  (NoDup (List.map Task.id (tasks st)) ->
   (NoDup (List.map Task.id (tasks st')) <-> rid ∉ List.map Task.id (tasks st))) /\
  projects st' = projects st /\
  activeProjectId st' = activeProjectId st.
Proof.
  intros He. unfold handleSaveTask. rewrite He. simpl.
  split; [reflexivity|]. do 3 (split; [reflexivity|]).
  split; [repeat split|].
  split; [intros Hall; apply findTask_app_fresh; [exact Hall | reflexivity]|].
  split; [|split; reflexivity].
  intros Hnd. rewrite List.map_app. simpl. rewrite NoDup_app. split.
  - intros (_ & Hdisj & _) Hin. apply (Hdisj rid Hin). constructor.
  - intros Hnin. split; [exact Hnd|]. split.
    + intros x Hx Hx'. apply list_elem_of_singleton in Hx'. subst x. exact (Hnin Hx).
    + apply NoDup_singleton.
Qed.

Lemma handleSaveTask_create_witness :
  tasks (handleSaveTask "k7" 1700000000000 Sample.draftA (initial (Some Auth.manager) 0)) =
  (INITIAL_TASKS 0 ++ [newTask "k7" 1700000000000 "p1" Sample.draftA])%list.
Proof.
  exact (proj1 (handleSaveTask_create "k7" 1700000000000 Sample.draftA
                  (initial (Some Auth.manager) 0) eq_refl)).
Defined.

(** *** Referential integrity *)

Lemma Forall_map_keep {A} (P : A -> Prop) (f : A -> A) (l : list A) :
  (forall x, P x -> P (f x)) -> Forall P l -> Forall P (List.map f l).
Proof. intros Hf. induction 1; simpl; constructor; auto. Qed.

Lemma Forall_filter_keep {A} (P : A -> Prop) (f : A -> bool) (l : list A) :
  Forall P l -> Forall P (List.filter f l).
Proof.
  induction 1 as [|x l Hx _ IH]; simpl; [constructor|].
  destruct (f x); [constructor|]; assumption.
Qed.

Lemma elem_of_map {A B} (f : A -> B) (l : list A) (x : A) :
  x ∈ l -> f x ∈ List.map f l.
Proof. rewrite !list_elem_of_In. apply in_map. Qed.

Lemma initial_referentialIntegrity (u : option User) (loaded : Z) :
  referentialIntegrity (initial u loaded).
Proof.
  split.
  - apply list_elem_of_In. simpl. tauto.
  - repeat constructor; apply list_elem_of_In; simpl; tauto.
Qed.

Lemma step_referentialIntegrity (st st' : State) :
  step st st' -> referentialIntegrity st -> referentialIntegrity st'.
Proof.
  unfold referentialIntegrity, projectIds.
  intros Hstep [Hact Htasks]. destruct Hstep; simpl.
  - split; assumption.
  - rewrite List.map_app. simpl. split.
    + apply elem_of_app. right. constructor.
    + eapply Forall_impl; [exact Htasks|]. intros t Ht.
      apply elem_of_app. left. exact Ht.
  - split; [apply elem_of_map; assumption | assumption].
  - split; [|assumption].
    rewrite Forall_forall in Htasks. apply Htasks. assumption.
  - split; assumption.
  - split; assumption.
  - split; assumption.
  - unfold handleSaveTask. destruct (taskToEdit st) as [e|]; simpl.
    + split; [assumption|]. apply Forall_map_keep; [|assumption].
      intros t Ht. destruct (String.eqb (Task.id t) (Task.id e)); assumption.
    + split; [assumption|]. apply Forall_app. split; [assumption|].
      constructor; [assumption | constructor].
  - unfold handleDeleteTask.
    destruct (isEmployee (user st)); simpl; [split; assumption|].
    destruct (confirm _); simpl; (split; [assumption|]); [|assumption].
    apply Forall_filter_keep. assumption.
  - split; [assumption|]. apply Forall_map_keep; [|assumption].
    intros t Ht. destruct (String.eqb (Task.id t) taskId); assumption.
Qed.

(** C9: in every state reached from the first render by creating
    projects, selecting a project, creating, editing, re-labelling and
    deleting tasks, the active project id and the [projectId] of every
    task are ids of listed projects. *)
Theorem referentialIntegrity_reachable (u : option User) (loaded : Z) (st : State) :
  reachable u loaded st -> referentialIntegrity st.
Proof.
  induction 1 as [|st st' _ IH Hstep].
  - apply initial_referentialIntegrity.
  - exact (step_referentialIntegrity st st' Hstep IH).
Qed.

Lemma referentialIntegrity_reachable_witness :
  referentialIntegrity
    (handleSaveTask "k7" 1700000000000 Sample.draftA
       (handleCreateProject "z9" "Project Titan" "Objective details"
          (initial (Some Auth.manager) 0))).
Proof.
  apply (referentialIntegrity_reachable (Some Auth.manager) 0).
  eapply reach_step; [eapply reach_step; [apply reach_initial|]|].
  - apply step_createProject.
  - apply step_saveTask.
Defined.

(** The new task of that run belongs to the project just created. *)
Example create_in_new_project :
  List.map Task.projectId
    (tasks (handleSaveTask "k7" 1700000000000 Sample.draftA
       (handleCreateProject "z9" "Project Titan" "Objective details"
          (initial (Some Auth.manager) 0)))) =
  ["p1"; "p1"; "p1"; "p1"; "p2"; "p2"; "p3"; "p3"; "z9"].
Proof. reflexivity. Qed.

End AppFacts.

(** ** The live meeting *)

Module MeetingFacts.
Import JsString JsStringFacts Meeting.

Lemma arrayIncludes_spec (x : string) (l : list string) :
  arrayIncludes x l = true <-> x ∈ l.
Proof.
  unfold arrayIncludes. rewrite existsb_exists, list_elem_of_In. split.
  - intros [y [Hy Heq]]. apply String.eqb_eq in Heq. subst y. exact Hy.
  - intros Hx. exists x. split; [exact Hx | apply String.eqb_refl].
Qed.

Lemma arrayIncludes_false (x : string) (l : list string) :
  arrayIncludes x l = false <-> x ∉ l.
Proof.
  rewrite <- arrayIncludes_spec. destruct (arrayIncludes x l); naive_solver.
Qed.

(** A join by a listed name returns the state it was given. *)
Lemma join_listed (st : State) (u : User) (m : LiveMeeting) :
  user st = Some u -> liveMeeting st = Some m ->
  User.name u ∈ participantsOf st m ->
  handleJoinLiveMeeting st = st.
Proof.
  intros Hu Hm Hin. unfold handleJoinLiveMeeting. rewrite Hu, Hm.
  apply arrayIncludes_spec in Hin. unfold participantsOf in Hin.
  rewrite Hin. reflexivity.
Qed.

(** A join by an unlisted name pushes it on the array, keeps the record
    in the state and rewrites the shared record. *)
Lemma join_unlisted (st : State) (u : User) (m : LiveMeeting) :
  user st = Some u -> liveMeeting st = Some m ->
  User.name u ∉ participantsOf st m ->
  let st' := handleJoinLiveMeeting st in
  user st' = Some u /\
  liveMeeting st' = Some m /\
  participantsOf st' m = (participantsOf st m ++ [User.name u])%list /\
  localStorage st' = <[KEY := stringify (arrays st') m]> (localStorage st).
Proof.
  intros Hu Hm Hnin. unfold handleJoinLiveMeeting. rewrite Hu, Hm.
  apply arrayIncludes_false in Hnin. unfold participantsOf in *.
  rewrite Hnin. simpl. split; [reflexivity|]. split; [reflexivity|].
  split; [|reflexivity]. apply lookup_total_insert_eq.
Qed.

Lemma count_occ_snoc_new (l : list string) (x : string) :
  x ∉ l -> count_occ string_dec (l ++ [x]) x = 1%nat.
Proof.
  intros Hx. rewrite count_occ_app. simpl.
  destruct (string_dec x x) as [_|Hne]; [|contradiction].
  rewrite (proj1 (count_occ_not_In string_dec l x)); [reflexivity|].
  rewrite <- list_elem_of_In. exact Hx.
Qed.

Lemma count_occ_NoDup_listed (l : list string) (x : string) :
  NoDup l -> x ∈ l -> count_occ string_dec l x = 1%nat.
Proof.
  intros Hnd Hx. apply NoDup_ListNoDup in Hnd.
  apply (proj1 (NoDup_count_occ' string_dec l) Hnd).
  apply list_elem_of_In. exact Hx.
Qed.

Lemma NoDup_snoc_new (l : list string) (x : string) :
  NoDup l -> x ∉ l -> NoDup (l ++ [x]).
Proof.
  intros Hnd Hx. apply NoDup_app. split; [exact Hnd|]. split.
  - intros y Hy Hy'. apply list_elem_of_singleton in Hy'. subst y. exact (Hx Hy).
  - apply NoDup_singleton.
Qed.

(** The array of a new meeting holds the host's name and nothing else,
    and the arrays that existed are not touched. *)
Lemma start_participants (rid : string) (now : Z) (topic : string) (st : State) (u : User) :
  user st = Some u ->
  let st' := handleStartLiveMeeting rid now topic st in
  exists m,
    liveMeeting st' = Some m /\
    participantsOf st' m = [User.name u] /\
    arrays st !! participants m = None /\
    forall a, a <> participants m -> arrays st' !! a = arrays st !! a.
Proof.
  intros Hu. unfold handleStartLiveMeeting. rewrite Hu. simpl.
  eexists. split; [reflexivity|]. unfold participantsOf. simpl.
  split; [apply lookup_total_insert_eq|]. split.
  - apply not_elem_of_dom. apply is_fresh.
  - intros a Ha. apply lookup_insert_ne. congruence.
Qed.

Lemma step_noDuplicates (st st' : State) :
  step st st' -> noDuplicates st -> noDuplicates st'.
Proof.
  intros Hstep Hinv. destruct Hstep as [u st|rid now topic st|st|st].
  - exact Hinv.
  - destruct (user st) as [u|] eqn:Hu.
    + destruct (start_participants rid now topic st u Hu) as (m & Hm & Hp & _).
      intros m' Hm'. rewrite Hm in Hm'. injection Hm' as <-.
      rewrite Hp. apply NoDup_singleton.
    + unfold handleStartLiveMeeting. rewrite Hu. exact Hinv.
  - destruct (user st) as [u|] eqn:Hu, (liveMeeting st) as [m|] eqn:Hm;
      try (unfold handleJoinLiveMeeting; rewrite Hu, ?Hm; exact Hinv).
    destruct (decide (User.name u ∈ participantsOf st m)) as [Hin|Hnin].
    + rewrite (join_listed st u m Hu Hm Hin). exact Hinv.
    + destruct (join_unlisted st u m Hu Hm Hnin) as (_ & Hm' & Hp & _).
      intros m' Hm''. rewrite Hm' in Hm''. injection Hm'' as <-.
      rewrite Hp. apply NoDup_snoc_new; [apply Hinv; exact Hm | exact Hnin].
  - intros m Hm. discriminate.
Qed.

(** Every meeting the handlers build lists each name once. *)
Lemma reachable_noDuplicates (st0 st : State) :
  liveMeeting st0 = None -> reachable st0 st -> noDuplicates st.
Proof.
  intros H0. induction 1 as [|st st' _ IH Hstep].
  - intros m Hm. congruence.
  - exact (step_noDuplicates st st' Hstep IH).
Qed.

(** C10: when the joining user's name is listed already, the join
    returns the state it was given: nothing is pushed, the
    [liveMeeting] cell is not set, and [localStorage] is not written. *)
Theorem join_listed_noop (st : State) (u : User) (m : LiveMeeting) :
  user st = Some u -> liveMeeting st = Some m ->
  User.name u ∈ participantsOf st m ->
  handleJoinLiveMeeting st = st /\
  localStorage (handleJoinLiveMeeting st) = localStorage st /\
  liveMeeting (handleJoinLiveMeeting st) = liveMeeting st /\
  arrays (handleJoinLiveMeeting st) = arrays st.
Proof.
  intros Hu Hm Hin. rewrite (join_listed st u m Hu Hm Hin). repeat split.
Qed.

(** C4: two joins in a row by the same user leave the user's name
    listed exactly once, and the second one changes nothing, in every
    meeting that lists no name twice (as every meeting built by the
    handlers does, [reachable_noDuplicates]); a join by a listed name
    leaves the list as it is. *)
Theorem join_twice_once (st : State) (u : User) (m : LiveMeeting) :
  user st = Some u -> liveMeeting st = Some m ->
  NoDup (participantsOf st m) ->
  let st1 := handleJoinLiveMeeting st in
  let st2 := handleJoinLiveMeeting st1 in
  liveMeeting st2 = Some m /\
  count_occ string_dec (participantsOf st2 m) (User.name u) = 1%nat /\
  NoDup (participantsOf st2 m) /\
  st2 = st1 /\
  (User.name u ∈ participantsOf st m -> participantsOf st1 m = participantsOf st m).
Proof.
  intros Hu Hm Hnd. cbv zeta.
  destruct (decide (User.name u ∈ participantsOf st m)) as [Hin|Hnin].
  - rewrite !(join_listed st u m Hu Hm Hin).
    split; [exact Hm|]. split; [apply count_occ_NoDup_listed; assumption|].
    split; [exact Hnd|]. split; reflexivity.
  - destruct (join_unlisted st u m Hu Hm Hnin) as (Hu1 & Hm1 & Hp1 & _).
    assert (Hin1 : User.name u ∈ participantsOf (handleJoinLiveMeeting st) m).
    { rewrite Hp1. apply elem_of_app. right. constructor. }
    rewrite (join_listed _ u m Hu1 Hm1 Hin1).
    split; [exact Hm1|]. rewrite Hp1.
    split; [apply count_occ_snoc_new; exact Hnin|].
    split; [apply NoDup_snoc_new; assumption|].
    split; [reflexivity|]. intros Hin. contradiction.
Qed.

Lemma join_listed_noop_witness :
  handleJoinLiveMeeting Sample.started = Sample.started.
Proof.
  refine (proj1 (join_listed_noop Sample.started Auth.manager Sample.sprintReview _ _ _)).
  - reflexivity.
  - reflexivity.
  - apply arrayIncludes_spec. reflexivity.
Defined.

Lemma join_twice_once_witness :
  count_occ string_dec
    (participantsOf (handleJoinLiveMeeting (handleJoinLiveMeeting Sample.visited))
       Sample.sprintReview)
    "Mike Developer" = 1%nat.
Proof.
  refine (proj1 (proj2 (join_twice_once Sample.visited Auth.employee Sample.sprintReview _ _ _))).
  - reflexivity.
  - reflexivity.
  - change (NoDup ["Sarah Manager"]). apply NoDup_singleton.
Defined.

(** The scenario of the specification: after the second user has
    joined, two names are listed, in the state and in the record. *)
Example join_second_user :
  participantsOf (handleJoinLiveMeeting Sample.visited) Sample.sprintReview =
    ["Sarah Manager"; "Mike Developer"] /\
  (Json.parse <$> localStorage (handleJoinLiveMeeting Sample.visited) !! KEY) =
    Some (Some (Json.Object
      [("id", Json.Str "m1"); ("hostId", Json.Str "u2");
       ("hostName", Json.Str "Sarah Manager"); ("topic", Json.Str "Sprint Review");
       ("startTime", Json.Number "1700000000000"); ("isActive", Json.Bool true);
       ("participants", Json.Array [Json.Str "Sarah Manager"; Json.Str "Mike Developer"])])).
Proof. split; reflexivity. Qed.

End MeetingFacts.

(** ** The meeting room's start gate *)

Module RoomFacts.
Import JsString JsStringFacts Meeting Room.

Lemma trimEnd_empty (s : string) : trimEnd s = "" <-> allWhiteSpace s = true.
Proof.
  induction s as [|c r IH]; simpl; [tauto|].
  rewrite andb_true_iff, <- IH.
  destruct (trimEnd r); destruct (isWhiteSpace c); split; intros H;
    try discriminate; try tauto; destruct H; discriminate.
Qed.

Lemma trimStart_allWhiteSpace (s : string) :
  allWhiteSpace (trimStart s) = allWhiteSpace s.
Proof.
  induction s as [|c r IH]; simpl; [reflexivity|].
  destruct (isWhiteSpace c) eqn:E; simpl; [exact IH|].
  rewrite E. reflexivity.
Qed.

(** [trim] gives the empty string exactly on the strings that are
    empty or hold white space only. *)
Lemma trim_empty (s : string) : trim s = "" <-> allWhiteSpace s = true.
Proof. unfold trim. rewrite trimEnd_empty, trimStart_allWhiteSpace. tauto. Qed.

(** C5: for a logged-in ADMIN or MANAGER with no active meeting the
    lobby shows the start form or, without a camera stream, the button
    that asks for the camera; the start operation is the button of the
    start form. Invoked with a topic that is empty after [trim] it sets
    the topic error and changes nothing else: nothing is written to
    [localStorage] and [liveMeeting] is as before. Invoked with any
    other topic it puts in the state, and writes under the shared key,
    a new meeting with the given id, the user as host, the topic as
    typed, [isActive] true and the host's name as its one participant,
    and the view becomes [Live]. *)
Theorem handleStartMeeting_host
  (rid : string) (now : Z) (room : Room.State) (app : Meeting.State) (u : User) :
  user app = Some u ->
  Permission.isPrivileged (Some u) = true ->
  isMeetingActive (liveMeeting app) = false ->
  (lobbyPanel room app = StartForm \/ lobbyPanel room app = EnableCamera) /\
  (lobbyPanel room app = StartForm ->
   let r := handleStartMeeting rid now room app in
   (trim (meetingTopic room) = "" ->
    r = (setError (Some "Please define a meeting topic.") room, app)) /\
   (trim (meetingTopic room) <> "" ->
    fst r = setView Live room /\
    exists m,
      liveMeeting (snd r) = Some m /\
      id m = rid /\ hostId m = User.id u /\ hostName m = User.name u /\
      topic m = meetingTopic room /\ startTime m = now /\
      isActive m = true /\
      participantsOf (snd r) m = [User.name u] /\
      localStorage (snd r) =
        <[KEY := stringify (arrays (snd r)) m]> (localStorage app))).
Proof.
  intros Hu Hhost Hidle. unfold lobbyPanel, handleStartMeeting.
  rewrite Hu, Hhost, Hidle. simpl.
  destruct (stream room) as [s|]; [|split; [right; reflexivity | discriminate]].
  split; [left; reflexivity|]. intros _.
  split; intros Htopic.
  - rewrite Htopic. reflexivity.
  - apply truthy_spec in Htopic. rewrite Htopic. simpl.
    split; [reflexivity|]. unfold handleStartLiveMeeting. rewrite Hu. simpl.
    eexists. split; [reflexivity|]. simpl. repeat split.
    unfold participantsOf. simpl. apply lookup_total_insert_eq.
Qed.

(** The start form is on screen only when the handler's conditions for
    a new meeting hold, the stream included. *)
Lemma lobbyPanel_StartForm (room : Room.State) (app : Meeting.State) :
  lobbyPanel room app = StartForm <->
  is_Some (stream room) /\
  isMeetingActive (liveMeeting app) = false /\
  Permission.isPrivileged (user app) = true.
Proof.
  unfold lobbyPanel. destruct (stream room) as [s|].
  - destruct (isMeetingActive (liveMeeting app)),
      (Permission.isPrivileged (user app)); split; intros H;
      try discriminate H; try (destruct H as (_ & ? & ?); discriminate).
    + split; [eexists; reflexivity | split; reflexivity].
    + reflexivity.
  - split; [discriminate|]. intros ([x Hx] & _). discriminate.
Qed.

Lemma handleStartMeeting_host_witness :
  let r := handleStartMeeting "m1" 1700000000000
             (Sample.cameraOn "Sprint Review") Sample.lobby in
  fst r = setView Live (Sample.cameraOn "Sprint Review") /\
  exists m,
    liveMeeting (snd r) = Some m /\
    id m = "m1" /\ hostId m = "u2" /\ hostName m = "Sarah Manager" /\
    topic m = "Sprint Review" /\ startTime m = 1700000000000 /\
    isActive m = true /\
    participantsOf (snd r) m = ["Sarah Manager"] /\
    localStorage (snd r) =
      <[KEY := stringify (arrays (snd r)) m]> (localStorage Sample.lobby).
Proof.
  refine (proj2 (proj2 (handleStartMeeting_host "m1" 1700000000000
                   (Sample.cameraOn "Sprint Review") Sample.lobby Auth.manager
                   eq_refl eq_refl eq_refl) eq_refl) _).
  discriminate.
Defined.

(** Without a stream the host sees the button that asks for the
    camera, and no button that starts or joins. *)
Example lobby_without_camera :
  lobbyPanel (Sample.cameraOff "Sprint Review") Sample.lobby = EnableCamera.
Proof. reflexivity. Qed.

(** A topic of blanks, no-break spaces included, is refused. *)
Example start_blank_topic :
  let topic := String " " (String (ascii_of_nat 160) (String (ascii_of_nat 9) "")) in
  handleStartMeeting "m1" 1700000000000 (Sample.cameraOn topic) Sample.lobby =
  (setError (Some "Please define a meeting topic.") (Sample.cameraOn topic), Sample.lobby).
Proof. reflexivity. Qed.

(** The scenario of the specification: the record the host writes. *)
Example start_sprint_review :
  (Json.parse <$>
     localStorage (snd (handleStartMeeting "m1" 1700000000000
                          (Sample.cameraOn "Sprint Review") Sample.lobby)) !! KEY) =
  Some (Some (Json.Object
    [("id", Json.Str "m1"); ("hostId", Json.Str "u2");
     ("hostName", Json.Str "Sarah Manager"); ("topic", Json.Str "Sprint Review");
     ("startTime", Json.Number "1700000000000"); ("isActive", Json.Bool true);
     ("participants", Json.Array [Json.Str "Sarah Manager"])])).
Proof. reflexivity. Qed.

(** The handler of [App] itself does not look at the topic: the check
    is the meeting room's. *)
Example handleStartLiveMeeting_empty_topic :
  topic <$> liveMeeting (handleStartLiveMeeting "m1" 0 "" Sample.lobby) = Some "".
Proof. reflexivity. Qed.

End RoomFacts.

(** ** JSON.parse never runs out of fuel *)

Module JsonFacts.
Import JsString JsStringFacts Json.

Local Open Scope nat_scope.

Lemma skipWs_cons (s : string) (c : ascii) (r : string) :
  skipWs s = String c r -> String.length r < String.length s.
Proof.
  induction s as [|a s IH]; simpl; [discriminate|].
  destruct (isJsonSpace a).
  - intros H. specialize (IH H). lia.
  - intros H. injection H as _ <-. lia.
Qed.

Lemma consRaw_Some (pre : string) (x : option (string * string)) (raw rest : string) :
  consRaw pre x = Some (raw, rest) -> exists raw', x = Some (raw', rest).
Proof.
  destruct x as [[raw' rest']|]; simpl; [|discriminate].
  intros H. injection H as _ <-. exists raw'. reflexivity.
Qed.

Lemma lexString_shorter (s raw rest : string) :
  lexString s = Some (raw, rest) -> String.length rest < String.length s.
Proof.
  remember (String.length s) as n eqn:Hn.
  assert (Hle : String.length s <= n) by lia. clear Hn.
  revert s raw rest Hle. induction n as [|n IH]; intros s raw rest Hle.
  - destruct s; simpl in *; [discriminate | lia].
  - destruct s as [|c r]; simpl in *; [discriminate|].
    destruct (Ascii.eqb c dquote).
    { intros H. injection H as _ <-. lia. }
    destruct (Ascii.eqb c backslash).
    { destruct r as [|e r1]; [discriminate|]. simpl in Hle.
      destruct (isSimpleEscape e).
      { intros H. apply consRaw_Some in H as [raw' H].
        apply IH in H; [lia | lia]. }
      destruct (Ascii.eqb e "u"); [|discriminate].
      destruct r1 as [|h1 [|h2 [|h3 [|h4 r2]]]]; try discriminate.
      destruct (isHex h1 && isHex h2 && isHex h3 && isHex h4); [|discriminate].
      simpl in Hle. intros H. apply consRaw_Some in H as [raw' H].
      apply IH in H; [lia | lia]. }
    destruct (nat_of_ascii c <? 32); [discriminate|].
    intros H. apply consRaw_Some in H as [raw' H].
    apply IH in H; [lia | lia].
Qed.

Lemma digits_length (s d r : string) :
  digits s = (d, r) -> String.length r <= String.length s.
Proof.
  revert d r. induction s as [|c s IH]; intros d r; simpl.
  - intros H. injection H as _ <-. simpl. lia.
  - destruct (isDigit c).
    + destruct (digits s) as [d' r'] eqn:E. intros H. injection H as _ <-.
      specialize (IH d' r' eq_refl). lia.
    + intros H. injection H as _ <-. simpl. lia.
Qed.

Lemma lexFraction_length (s f r : string) :
  lexFraction s = Some (f, r) -> String.length r <= String.length s.
Proof.
  unfold lexFraction. destruct s as [|c s]; simpl.
  - intros H. injection H as _ <-. simpl. lia.
  - destruct (Ascii.eqb c ".").
    + destruct (digits s) as [ds r'] eqn:E. apply digits_length in E.
      destruct (String.eqb ds ""); [discriminate|].
      intros H. injection H as _ <-. lia.
    + intros H. injection H as _ <-. simpl. lia.
Qed.

Lemma lexExponent_length (s x r : string) :
  lexExponent s = Some (x, r) -> String.length r <= String.length s.
Proof.
  unfold lexExponent. destruct s as [|c s]; simpl.
  - intros H. injection H as _ <-. simpl. lia.
  - destruct (Ascii.eqb c "e" || Ascii.eqb c "E").
    + destruct s as [|y s'].
      * simpl. discriminate.
      * destruct (Ascii.eqb y "+" || Ascii.eqb y "-").
        -- destruct (digits s') as [ds r2] eqn:E. apply digits_length in E.
           destruct (String.eqb ds ""); [discriminate|].
           intros H. injection H as _ <-. simpl. lia.
        -- destruct (digits (String y s')) as [ds r2] eqn:E.
           apply digits_length in E.
           destruct (String.eqb ds ""); [discriminate|].
           intros H. injection H as _ <-. simpl in *. lia.
    + intros H. injection H as _ <-. simpl. lia.
Qed.

Lemma lexNumber_shorter (s lexeme rest : string) :
  lexNumber s = Some (lexeme, rest) -> String.length rest < String.length s.
Proof.
  unfold lexNumber.
  assert (Hcore : forall s1 sign,
    match s1 with
    | EmptyString => None
    | String d r =>
        if isDigit d then
          let '(int, s2) :=
            if Ascii.eqb d "0" then (String d EmptyString, r)
            else let '(ds, r') := digits r in (String d ds, r') in
          match lexFraction s2 with
          | None => None
          | Some (frac, s3) =>
              match lexExponent s3 with
              | None => None
              | Some (ex, s4) => Some (sign ++ int ++ frac ++ ex, s4)
              end
          end
        else None
    end = Some (lexeme, rest) -> String.length rest < String.length s1).
  { intros s1 sign. destruct s1 as [|d r]; [discriminate|].
    destruct (isDigit d); [|discriminate].
    assert (Hs2 : forall int s2,
      (if Ascii.eqb d "0" then (String d EmptyString, r)
       else let '(ds, r') := digits r in (String d ds, r')) = (int, s2) ->
      String.length s2 <= String.length r).
    { intros int s2. destruct (Ascii.eqb d "0").
      - intros H. injection H as _ <-. lia.
      - destruct (digits r) as [ds r'] eqn:E. apply digits_length in E.
        intros H. injection H as _ <-. exact E. }
    destruct (if Ascii.eqb d "0" then _ else _) as [int s2] eqn:E2.
    specialize (Hs2 int s2 eq_refl). clear E2.
    destruct (lexFraction s2) as [[frac s3]|] eqn:E3; [|discriminate].
    apply lexFraction_length in E3.
    destruct (lexExponent s3) as [[ex s4]|] eqn:E4; [|discriminate].
    apply lexExponent_length in E4.
    intros H. injection H as _ <-. simpl. lia. }
  destruct s as [|c r]; [discriminate|].
  destruct (Ascii.eqb c "-").
  - intros H. pose proof (Hcore r (String c EmptyString) H). simpl. lia.
  - intros H. exact (Hcore (String c r) EmptyString H).
Qed.

Lemma dropChars_prefix (p s : string) :
  startsWith p s = true ->
  String.length (dropChars (String.length p) s) + String.length p = String.length s.
Proof.
  revert s. induction p as [|a p IH]; intros s; simpl; [lia|].
  destruct s as [|b s]; [discriminate|].
  rewrite andb_true_iff. intros [_ H]. specialize (IH s H). simpl. lia.
Qed.

Ltac split_step :=
  match goal with
  | |- context [match skipWs ?s with _ => _ end] =>
      destruct (skipWs s) as [|? ?] eqn:?
  | |- context [match lexString ?s with _ => _ end] =>
      destruct (lexString s) as [[? ?]|] eqn:?
  | |- context [match lexNumber ?s with _ => _ end] =>
      destruct (lexNumber s) as [[? ?]|] eqn:?
  | |- context [match parseValue ?f ?s with _ => _ end] =>
      destruct (parseValue f s) eqn:?
  | |- context [if ?b then _ else _] => destruct b eqn:?
  end.

Ltac length_facts IHv :=
  repeat match goal with
  | H : skipWs _ = String _ _ |- _ => apply skipWs_cons in H
  | H : lexString _ = Some _ |- _ => apply lexString_shorter in H
  | H : lexNumber _ = Some _ |- _ => apply lexNumber_shorter in H
  | H : startsWith ?p ?s = true |- _ =>
      apply dropChars_prefix in H; cbn [String.length] in H;
      let d := fresh "d" in
      set (d := dropChars _ s) in *; clearbody d
  | H : parseValue _ _ = POk _ _ |- _ => apply (proj1 (IHv _)) in H
  end;
  cbn [String.length] in *.

Ltac leaf IHv IHe IHm :=
  split;
  [ intros ? ? Heq;
    first [ discriminate Heq
          | injection Heq as <- <-; lia
          | apply (proj1 (IHe _ _)) in Heq; lia
          | apply (proj1 (IHm _ _)) in Heq; lia ]
  | intros Hb;
    first [ discriminate
          | apply (proj2 (IHe _ _)); lia
          | apply (proj2 (IHm _ _)); lia
          | exfalso;
            match goal with
            | H : parseValue _ _ = POutOfFuel |- _ =>
                revert H; apply (proj2 (IHv _)); lia
            end ] ].

(** Each of the three parsers consumes at least one character when it
    succeeds, and does not run out of fuel when it is given two units
    per character and one or two more. *)
Lemma parse_fuel (fuel : nat) :
  (forall s,
     (forall v r, parseValue fuel s = POk v r -> String.length r < String.length s) /\
     (2 * String.length s + 1 <= fuel -> parseValue fuel s <> POutOfFuel)) /\
  (forall s acc,
     (forall v r, parseElements fuel s acc = POk v r ->
                  String.length r < String.length s) /\
     (2 * String.length s + 2 <= fuel -> parseElements fuel s acc <> POutOfFuel)) /\
  (forall s acc,
     (forall v r, parseMembers fuel s acc = POk v r ->
                  String.length r < String.length s) /\
     (2 * String.length s + 2 <= fuel -> parseMembers fuel s acc <> POutOfFuel)).
Proof.
  induction fuel as [|f (IHv & IHe & IHm)].
  - repeat split; simpl; intros; try discriminate; lia.
  - split; [|split].
    + intros s. cbn [parseValue]. repeat split_step;
        length_facts IHv; leaf IHv IHe IHm.
    + intros s acc. cbn [parseElements]. repeat split_step;
        length_facts IHv; leaf IHv IHe IHm.
    + intros s acc. cbn [parseMembers]. repeat split_step;
        length_facts IHv; leaf IHv IHe IHm.
Qed.

Lemma parseValue_fuel (s : string) : parseValue (fuelFor s) s <> POutOfFuel.
Proof. apply (proj2 (proj1 (parse_fuel (fuelFor s)) s)). unfold fuelFor. lia. Qed.

(** [parse] fails on a syntax error only: the text has no value at its
    head, or something other than white space follows the value. *)
Lemma parse_None (s : string) :
  parse s = None <->
  parseValue (fuelFor s) s = PSyntaxError \/
  exists v rest, parseValue (fuelFor s) s = POk v rest /\ skipWs rest <> "".
Proof.
  unfold parse. pose proof (parseValue_fuel s) as Hfuel.
  destruct (parseValue (fuelFor s) s) as [v rest| |]; [| |contradiction].
  - destruct (String.eqb (skipWs rest) "") eqn:E.
    + apply String.eqb_eq in E. split; [discriminate|].
      intros [H|(v' & rest' & H & Hne)]; [discriminate|].
      injection H as <- <-. contradiction.
    + apply String.eqb_neq in E. split; [|reflexivity].
      intros _. right. exists v, rest. split; [reflexivity | exact E].
  - split; [intros _; left; reflexivity | reflexivity].
Qed.

(** *** What [stringify] writes, [parse] reads *)

Lemma append_cons (c : ascii) (a b : string) : String c a ++ b = String c (a ++ b).
Proof. reflexivity. Qed.

Lemma append_nil_l (b : string) : "" ++ b = b.
Proof. reflexivity. Qed.

Lemma append_assoc (a b c : string) : (a ++ b) ++ c = a ++ (b ++ c).
Proof.
  induction a as [|x a IH]; [reflexivity|].
  rewrite !append_cons, IH. reflexivity.
Qed.

Lemma append_nil_r (a : string) : a ++ "" = a.
Proof.
  induction a as [|x a IH]; [reflexivity|]. rewrite append_cons, IH. reflexivity.
Qed.

Lemma lexString_escapeChar (c : ascii) (tail : string) :
  lexString (escapeChar c ++ tail) = consRaw (escapeChar c) (lexString tail).
Proof.
  destruct c as [[] [] [] [] [] [] [] []]; reflexivity.
Qed.

Lemma lexString_escape (s rest : string) :
  lexString (escape s ++ String dquote rest) = Some (escape s, rest).
Proof.
  induction s as [|c s IH].
  - reflexivity.
  - cbn [escape]. rewrite append_assoc, lexString_escapeChar, IH. reflexivity.
Qed.

Lemma parseValue_quote (fuel : nat) (s rest : string) :
  parseValue (S fuel) (quote s ++ rest) = POk (Str (escape s)) rest.
Proof.
  unfold quote. rewrite append_cons, append_assoc, append_cons, append_nil_l.
  cbn [parseValue skipWs].
  change (isJsonSpace dquote) with false. cbv iota.
  change (Ascii.eqb dquote "{") with false.
  change (Ascii.eqb dquote "[") with false.
  change (Ascii.eqb dquote dquote) with true. cbv iota.
  rewrite lexString_escape. reflexivity.
Qed.

Lemma digit_char (d : ascii) :
  isDigit d = true ->
  isJsonSpace d = false /\ Ascii.eqb d "{" = false /\ Ascii.eqb d "[" = false /\
  Ascii.eqb d dquote = false /\ Ascii.eqb d "-" = false.
Proof.
  destruct d as [[] [] [] [] [] [] [] []]; intros H; try discriminate H;
    repeat split.
Qed.

Lemma digits_run (ds : string) (c : ascii) (rest : string) :
  allDigits ds = true -> isDigit c = false ->
  digits (ds ++ String c rest) = (ds, String c rest).
Proof.
  intros Hds Hc. induction ds as [|d ds IH].
  - rewrite append_nil_l. cbn [digits]. rewrite Hc. reflexivity.
  - cbn [allDigits] in Hds. apply andb_true_iff in Hds as [Hd Hds].
    rewrite append_cons. cbn [digits]. rewrite Hd, (IH Hds). reflexivity.
Qed.

Lemma allDigits_snoc (ds : string) (c : ascii) :
  allDigits ds = true -> isDigit c = true -> allDigits (ds ++ String c "") = true.
Proof.
  intros Hds Hc. induction ds as [|d ds IH].
  - rewrite append_nil_l. cbn [allDigits]. rewrite Hc. reflexivity.
  - cbn [allDigits] in Hds. apply andb_true_iff in Hds as [Hd Hds].
    rewrite append_cons. cbn [allDigits]. rewrite Hd, (IH Hds). reflexivity.
Qed.

Lemma pretty_N_char_digit (y : N) : isDigit (pretty_N_char y) = true.
Proof. unfold pretty_N_char. repeat case_match; reflexivity. Qed.

Lemma pretty_N_char_nonzero (y : N) :
  (0 < y < 10)%N -> Ascii.eqb (pretty_N_char y) "0" = false.
Proof.
  intros Hy.
  assert (y = 1 \/ y = 2 \/ y = 3 \/ y = 4 \/ y = 5 \/ y = 6 \/ y = 7 \/ y = 8 \/ y = 9)%N
    as H by lia.
  repeat destruct H as [H|H]; subst y; reflexivity.
Qed.

(** The digits of a positive number: a digit other than 0, then digits. *)
Lemma pretty_N_go_digits (x : N) (s : string) :
  (0 < x)%N ->
  exists d ds,
    pretty_N_go x s = String d (ds ++ s) /\
    isDigit d = true /\ Ascii.eqb d "0" = false /\ allDigits ds = true.
Proof.
  revert s. induction (N.lt_wf_0 x) as [x _ IH]; intros s Hx.
  rewrite pretty_N_go_step by exact Hx.
  destruct (decide (x `div` 10 = 0)%N) as [Hq|Hq].
  - rewrite Hq, pretty_N_go_0.
    assert (x < 10)%N by (apply N.div_small_iff in Hq; lia).
    rewrite N.mod_small by assumption.
    exists (pretty_N_char x), "". rewrite append_nil_l.
    split; [reflexivity|]. split; [apply pretty_N_char_digit|].
    split; [apply pretty_N_char_nonzero; lia | reflexivity].
  - destruct (IH (x `div` 10)%N) with (s := String (pretty_N_char (x `mod` 10)) s)
      as (d & ds & Heq & Hd & Hd0 & Hds).
    + apply N.div_lt; lia.
    + apply N.neq_0_lt_0. exact Hq.
    + exists d, (ds ++ String (pretty_N_char (x `mod` 10)) "").
      rewrite Heq, append_assoc, append_cons, append_nil_l.
      split; [reflexivity|]. split; [exact Hd|]. split; [exact Hd0|].
      apply allDigits_snoc; [exact Hds | apply pretty_N_char_digit].
Qed.

Lemma lexNumber_digits (d : ascii) (ds rest : string) :
  isDigit d = true -> Ascii.eqb d "0" = false -> allDigits ds = true ->
  lexNumber (String d (ds ++ String "," rest)) = Some (String d ds, String "," rest) /\
  lexNumber (String "-" (String d (ds ++ String "," rest)))
    = Some (String "-" (String d ds), String "," rest).
Proof.
  intros Hd Hd0 Hds. destruct (digit_char d Hd) as (_ & _ & _ & _ & Hminus).
  unfold lexNumber. rewrite Hminus.
  change (Ascii.eqb "-" "-") with true. cbv iota. rewrite Hd, Hd0.
  rewrite (digits_run ds "," rest Hds eq_refl).
  cbv beta iota zeta.
  change (lexFraction (String "," rest)) with (Some ("", String "," rest)).
  cbv beta iota zeta.
  change (lexExponent (String "," rest)) with (Some ("", String "," rest)).
  cbv beta iota zeta.
  rewrite ?append_nil_l, ?append_nil_r, ?append_cons, ?append_nil_l.
  split; reflexivity.
Qed.

Lemma parseValue_ofInteger (fuel : nat) (n : Z) (rest : string) :
  parseValue (S fuel) (ofInteger n ++ String "," rest)
  = POk (Number (ofInteger n)) (String "," rest).
Proof.
  unfold ofInteger, pretty, pretty_Z. destruct n as [|p|p].
  - reflexivity.
  - unfold pretty, pretty_positive, pretty, pretty_N.
    rewrite decide_False by discriminate.
    destruct (pretty_N_go_digits (N.pos p) "" ltac:(lia)) as (d & ds & Heq & Hd & Hd0 & Hds).
    rewrite Heq, append_nil_r, append_cons.
    destruct (digit_char d Hd) as (Hws & Hb1 & Hb2 & Hq & Hminus).
    cbn [parseValue skipWs]. rewrite Hws, Hb1, Hb2, Hq, Hminus, Hd. cbv iota.
    cbn [orb].
    rewrite (proj1 (lexNumber_digits d ds rest Hd Hd0 Hds)). reflexivity.
  - unfold pretty, pretty_positive, pretty, pretty_N.
    rewrite decide_False by discriminate.
    destruct (pretty_N_go_digits (N.pos p) "" ltac:(lia)) as (d & ds & Heq & Hd & Hd0 & Hds).
    rewrite Heq, append_nil_r, !append_cons, append_nil_l, append_cons.
    cbn [parseValue skipWs].
    change (isJsonSpace "-") with false. cbv iota.
    change (Ascii.eqb "-" "{") with false.
    change (Ascii.eqb "-" "[") with false.
    change (Ascii.eqb "-" dquote) with false.
    change (Ascii.eqb "-" "-") with true. cbv iota. cbn [orb].
    rewrite (proj2 (lexNumber_digits d ds rest Hd Hd0 Hds)). reflexivity.
Qed.

Lemma parseValue_ofBool (fuel : nat) (b : bool) (rest : string) :
  parseValue (S fuel) (ofBool b ++ String "," rest) = POk (Bool b) (String "," rest).
Proof. destruct b; reflexivity. Qed.


Lemma parseElements_quotes (l : list string) :
  forall (fuel : nat) (x : string) (acc : list value) (rest : string),
  length l + 2 <= fuel ->
  parseElements fuel (join "," (List.map quote (x :: l)) ++ String "]" rest) acc
  = POk (Array (rev acc ++ strs (x :: l))%list) rest.
Proof.
  induction l as [|y l IH]; intros fuel x acc rest Hfuel.
  - destruct fuel as [|f]; [simpl in Hfuel; lia|].
    cbn [List.map join parseElements].
    destruct f as [|f]; [simpl in Hfuel; lia|].
    rewrite parseValue_quote. reflexivity.
  - destruct fuel as [|f]; [simpl in Hfuel; lia|].
    change (join "," (List.map quote (x :: y :: l)))
      with (quote x ++ "," ++ join "," (List.map quote (y :: l))).
    rewrite !append_assoc, (append_cons "," ""), append_nil_l.
    cbn [parseElements].
    destruct f as [|f]; [simpl in Hfuel; lia|].
    rewrite parseValue_quote.
    cbn [skipWs]. change (isJsonSpace ",") with false. cbv iota.
    change (Ascii.eqb "," ",") with true. cbv iota.
    rewrite IH by (simpl in *; lia).
    cbn [strs List.map rev]. rewrite <- app_assoc. reflexivity.
Qed.

Lemma quote_head (s rest : string) :
  quote s ++ rest = String dquote (escape s ++ String dquote rest).
Proof. unfold quote. rewrite append_cons, append_assoc, append_cons, append_nil_l. reflexivity. Qed.

Lemma parseValue_ofStrings (l : list string) (fuel : nat) (rest : string) :
  length l + 2 <= fuel ->
  parseValue fuel (ofStrings l ++ rest) = POk (Array (strs l)) rest.
Proof.
  intros Hfuel. destruct fuel as [|f]; [lia|]. unfold ofStrings.
  destruct l as [|x l].
  - reflexivity.
  - rewrite !append_assoc, append_cons, !append_nil_l, append_cons, append_nil_l.
    cbn [parseValue skipWs]. change (isJsonSpace "[") with false. cbv iota.
    change (Ascii.eqb "[" "{") with false. change (Ascii.eqb "[" "[") with true.
    cbv iota.
    assert (Hhead : exists t, join "," (List.map quote (x :: l)) ++ String "]" rest
                              = String dquote t).
    { destruct l as [|y l].
      - cbn [List.map join]. rewrite quote_head. eexists. reflexivity.
      - change (join "," (List.map quote (x :: y :: l)))
          with (quote x ++ "," ++ join "," (List.map quote (y :: l))).
        rewrite append_assoc, quote_head. eexists. reflexivity. }
    destruct Hhead as [t Ht].
    rewrite Ht at 1. cbn [skipWs]. change (isJsonSpace dquote) with false. cbv iota.
    change (Ascii.eqb dquote "]") with false. cbv iota.
    rewrite parseElements_quotes by (simpl in *; lia). reflexivity.
Qed.

Lemma parseMembers_next (f : nat) (key vtext : string) (v : value)
  (more : string) (acc : list (string * value)) :
  parseValue f (vtext ++ String "," more) = POk v (String "," more) ->
  parseMembers (S f) (quote key ++ ":" ++ vtext ++ "," ++ more) acc
  = parseMembers f more ((escape key, v) :: acc).
Proof.
  intros Hv. rewrite quote_head. cbn [parseMembers skipWs].
  change (isJsonSpace dquote) with false. cbv iota.
  change (Ascii.eqb dquote dquote) with true. cbv iota.
  rewrite lexString_escape.
  change (":" ++ vtext ++ "," ++ more) with (String ":" (vtext ++ String "," more)).
  cbn [skipWs]. change (isJsonSpace ":") with false. cbv iota.
  change (Ascii.eqb ":" ":") with true. cbv iota.
  rewrite Hv. cbn [skipWs]. change (isJsonSpace ",") with false. cbv iota.
  change (Ascii.eqb "," ",") with true. cbv iota. reflexivity.
Qed.

Lemma parseMembers_last (f : nat) (key vtext : string) (v : value)
  (rest : string) (acc : list (string * value)) :
  parseValue f (vtext ++ String "}" rest) = POk v (String "}" rest) ->
  parseMembers (S f) (quote key ++ ":" ++ vtext ++ String "}" rest) acc
  = POk (Object (rev ((escape key, v) :: acc))) rest.
Proof.
  intros Hv. rewrite quote_head. cbn [parseMembers skipWs].
  change (isJsonSpace dquote) with false. cbv iota.
  change (Ascii.eqb dquote dquote) with true. cbv iota.
  rewrite lexString_escape.
  change (":" ++ vtext ++ String "}" rest) with (String ":" (vtext ++ String "}" rest)).
  cbn [skipWs]. change (isJsonSpace ":") with false. cbv iota.
  change (Ascii.eqb ":" ":") with true. cbv iota.
  rewrite Hv. cbn [skipWs]. change (isJsonSpace "}") with false. cbv iota.
  change (Ascii.eqb "}" ",") with false. change (Ascii.eqb "}" "}") with true.
  cbv iota. reflexivity.
Qed.

Lemma length_append (a b : string) :
  String.length (a ++ b) = String.length a + String.length b.
Proof.
  induction a as [|x a IH]; [reflexivity|].
  rewrite append_cons. cbn [String.length]. rewrite IH. reflexivity.
Qed.

Lemma length_join_quote (l : list string) :
  length l <= String.length (join "," (List.map quote l)).
Proof.
  induction l as [|x l IH]; [simpl; lia|].
  destruct l as [|y l].
  - cbn [List.map join]. unfold quote. cbn [String.length length]. lia.
  - change (join "," (List.map quote (x :: y :: l)))
      with (quote x ++ "," ++ join "," (List.map quote (y :: l))).
    rewrite !length_append. unfold quote at 1. cbn [String.length length] in *. lia.
Qed.

End JsonFacts.

(** ** Polling *)

Module PollFacts.
Import JsString JsStringFacts Json Meeting Poll.

Import JsonFacts.
Local Open Scope nat_scope.

Lemma parseValue_stringify
  (arr : gmap positive (list string)) (m : LiveMeeting) (fuel : nat) :
  length (arr !!! participants m) + 10 <= fuel ->
  parseValue fuel (stringify arr m) = POk (parsed arr m) "".
Proof.
  intros Hfuel. unfold stringify.
  destruct fuel as [|f]; [lia|].
  change ("{" ++ ?x) with (String "{" x).
  cbn [parseValue skipWs]. change (isJsonSpace "{") with false. cbv iota.
  change (Ascii.eqb "{" "{") with true. cbv iota.
  rewrite (quote_head "id") at 1. cbn [skipWs].
  change (isJsonSpace dquote) with false. cbv iota.
  change (Ascii.eqb dquote "}") with false. cbv iota.
  do 4 (destruct f as [|f]; [lia|];
        erewrite parseMembers_next;
        [|destruct f as [|f]; [lia|]; apply parseValue_quote]).
  destruct f as [|f]; [lia|].
  erewrite parseMembers_next;
    [|destruct f as [|f]; [lia|]; apply parseValue_ofInteger].
  destruct f as [|f]; [lia|].
  erewrite parseMembers_next;
    [|destruct f as [|f]; [lia|]; apply parseValue_ofBool].
  destruct f as [|f]; [lia|].
  change (?x ++ "}") with (x ++ String "}" "").
  erewrite parseMembers_last; [|apply parseValue_ofStrings; lia].
  reflexivity.
Qed.


(** The record the handlers write is JSON: [parse] gives back its
    fields, so a poll of it does not throw. *)
Lemma parse_stringify (arr : gmap positive (list string)) (m : LiveMeeting) :
  parse (stringify arr m) = Some (parsed arr m).
Proof.
  unfold parse. rewrite parseValue_stringify; [reflexivity|].
  unfold fuelFor, stringify, ofStrings. rewrite !length_append.
  pose proof (length_join_quote (arr !!! participants m)).
  cbn [String.length]. lia.
Qed.

Local Close Scope nat_scope.

Lemma checkMeeting_adopts (storage : gmap string string)
  (arr : gmap positive (list string)) (m : LiveMeeting) (v : Json.value) :
  storage !! KEY = Some (stringify arr m) ->
  checkMeeting storage v = (parsed arr m, Returned).
Proof.
  intros H. unfold checkMeeting. rewrite H, parse_stringify. reflexivity.
Qed.

(** A poll in any context after a start or after a join that wrote
    adopts the record as written. *)
Lemma poll_after_start
  (rid : string) (now : Z) (topic : string) (st : Meeting.State) (u : User)
  (v : Json.value) :
  user st = Some u ->
  let st' := handleStartLiveMeeting rid now topic st in
  exists m,
    liveMeeting st' = Some m /\
    participantsOf st' m = [User.name u] /\
    checkMeeting (localStorage st') v = (parsed (arrays st') m, Returned).
Proof.
  intros Hu. unfold handleStartLiveMeeting. rewrite Hu. simpl.
  eexists. split; [reflexivity|]. split.
  - unfold participantsOf. simpl. apply lookup_total_insert_eq.
  - apply checkMeeting_adopts. apply lookup_insert_eq.
Qed.

Lemma poll_after_join (st : Meeting.State) (u : User) (m : LiveMeeting) (v : Json.value) :
  user st = Some u -> liveMeeting st = Some m ->
  User.name u ∉ participantsOf st m ->
  let st' := handleJoinLiveMeeting st in
  checkMeeting (localStorage st') v = (parsed (arrays st') m, Returned) /\
  participantsOf st' m = (participantsOf st m ++ [User.name u])%list.
Proof.
  intros Hu Hm Hnin.
  destruct (MeetingFacts.join_unlisted st u m Hu Hm Hnin) as (_ & _ & Hp & Hs).
  split; [|exact Hp].
  apply checkMeeting_adopts. rewrite Hs. apply lookup_insert_eq.
Qed.

Lemma checkMeeting_absent (storage : gmap string string) (v : Json.value) :
  storage !! KEY = None -> checkMeeting storage v = (Null, Returned).
Proof. intros H. unfold checkMeeting. rewrite H. reflexivity. Qed.

(** C2, as stated, fails: a stored text that is not JSON makes the step
    throw, and a stored text that is JSON of another shape is adopted
    as it is, not taken for an absent record. *)
Lemma checkMeeting_malformed :
  checkMeeting (<[KEY := "{oops"]> empty) Null = (Null, ThrownSyntaxError) /\
  checkMeeting (<[KEY := "42"]> empty) Null = (Number "42", Returned).
Proof. split; reflexivity. Qed.

(** C2, amended: one run of [checkMeeting] sets the state to "no active
    meeting" when the key is absent or holds the empty string; a stored
    text that is JSON becomes the state as parsed, whatever its shape;
    on a stored text that is not JSON the run throws the parser's
    SyntaxError and leaves the state as it was. These are the only
    runs that throw. *)
Theorem checkMeeting_cases (storage : gmap string string) (local : Json.value) :
  (storage !! KEY = None -> checkMeeting storage local = (Null, Returned)) /\
  (storage !! KEY = Some "" -> checkMeeting storage local = (Null, Returned)) /\
  (forall s v, storage !! KEY = Some s -> s <> "" -> parse s = Some v ->
               checkMeeting storage local = (v, Returned)) /\
  (forall s, storage !! KEY = Some s -> s <> "" -> parse s = None ->
             checkMeeting storage local = (local, ThrownSyntaxError)) /\
  (snd (checkMeeting storage local) = ThrownSyntaxError <->
   exists s, storage !! KEY = Some s /\ s <> "" /\ parse s = None).
Proof.
  unfold checkMeeting. repeat split.
  - intros H. rewrite H. reflexivity.
  - intros H. rewrite H. reflexivity.
  - intros s v H Hs Hp. apply truthy_spec in Hs. rewrite H, Hs, Hp. reflexivity.
  - intros s H Hs Hp. apply truthy_spec in Hs. rewrite H, Hs, Hp. reflexivity.
  - destruct (storage !! KEY) as [s|]; [|discriminate].
    destruct (truthy s) eqn:Hs; [|discriminate].
    apply truthy_spec in Hs.
    destruct (parse s) eqn:Hp; [discriminate|].
    intros _. exists s. repeat split; assumption.
  - intros (s & H & Hs & Hp). apply truthy_spec in Hs.
    rewrite H, Hs, Hp. reflexivity.
Qed.

Lemma checkMeeting_cases_witness :
  checkMeeting (<[KEY := "42"]> empty) Null = (Number "42", Returned) /\
  checkMeeting (<[KEY := "{oops"]> empty) (Number "42") = (Number "42", ThrownSyntaxError).
Proof.
  split.
  - refine (proj1 (proj2 (proj2 (checkMeeting_cases _ _))) "42" (Number "42") _ _ _).
    + reflexivity.
    + discriminate.
    + reflexivity.
  - refine (proj1 (proj2 (proj2 (proj2 (checkMeeting_cases _ _)))) "{oops" _ _ _).
    + reflexivity.
    + discriminate.
    + reflexivity.
Defined.

(** *** Stop, then poll *)






(** On the timer's nominal schedule every context polls within one
    interval after any instant. *)
Lemma next_poll_within_interval (mounted stopped : Z) :
  (mounted <= stopped)%Z ->
  exists k, (stopped < pollTime mounted k <= stopped + INTERVAL)%Z.
Proof.
  intros Hle. unfold pollTime, INTERVAL.
  exists (Z.to_nat ((stopped - mounted) / 1000 + 1)).
  rewrite Z2Nat.id.
  - pose proof (Z.div_mod (stopped - mounted) 1000 ltac:(lia)) as Hdm.
    pose proof (Z.mod_pos_bound (stopped - mounted) 1000 ltac:(lia)) as Hb.
    lia.
  - pose proof (Z.div_pos (stopped - mounted) 1000 ltac:(lia) ltac:(lia)). lia.
Qed.

End PollFacts.

(** ** The board: columns, drops and status changes *)

Module BoardFacts.
Import App Board.

Lemma filter_status_lengths (l : list Task) :
  (length (List.filter (fun t => bool_decide (Task.status t = TODO)) l) +
   length (List.filter (fun t => bool_decide (Task.status t = IN_PROGRESS)) l) +
   length (List.filter (fun t => bool_decide (Task.status t = REVIEW)) l) +
   length (List.filter (fun t => bool_decide (Task.status t = DONE)) l))%nat
  = length l.
Proof.
  induction l as [|t l IH]; [reflexivity|].
  simpl. destruct (Task.status t); simpl; lia.
Qed.

(** The four columns share out the cards of the active project: their
    sizes add up to the number of its tasks, and a task is in the
    column of a status exactly when it belongs to the project and has
    that status, so it is in one column only. *)
Theorem columns_partition (st : State) :
  (length (column TODO st) + length (column IN_PROGRESS st) +
   length (column REVIEW st) + length (column DONE st))%nat
  = length (projectTasks st) /\
  (forall t s, t ∈ column s st <-> t ∈ projectTasks st /\ Task.status t = s) /\
  (forall t s s', t ∈ column s st -> t ∈ column s' st -> s = s').
Proof.
  split; [apply filter_status_lengths|].
  assert (Hin : forall t s,
            t ∈ column s st <-> t ∈ projectTasks st /\ Task.status t = s).
  { intros t s. unfold column.
    rewrite !list_elem_of_In, filter_In, bool_decide_eq_true. reflexivity. }
  split; [exact Hin|].
  intros t s s' Hs Hs'. apply Hin in Hs as [_ <-]. apply Hin in Hs' as [_ <-].
  reflexivity.
Qed.

Lemma columns_partition_witness :
  (length (column TODO (initial None 0)) + length (column IN_PROGRESS (initial None 0)) +
   length (column REVIEW (initial None 0)) + length (column DONE (initial None 0)))%nat
  = length (projectTasks (initial None 0)).
Proof. exact (proj1 (columns_partition (initial None 0))). Defined.

Lemma filter_length_same_key (key : Task -> string) (q : string -> bool)
  (l l' : list Task) :
  List.map key l' = List.map key l ->
  length (List.filter (fun t => q (key t)) l') =
  length (List.filter (fun t => q (key t)) l).
Proof.
  revert l'. induction l as [|x l IH]; intros [|x' l'] Heq; try discriminate;
    [reflexivity|].
  simpl in Heq. injection Heq as Hx Hl. simpl. rewrite Hx.
  destruct (q (key x)); simpl; rewrite (IH l' Hl); reflexivity.
Qed.

Lemma withStatus_same (t : Task) : withStatus t (Task.status t) = t.
Proof. destruct t. reflexivity. Qed.

Lemma withStatus_twice (t : Task) (s1 s2 : TaskStatus) :
  withStatus (withStatus t s1) s2 = withStatus t s2.
Proof. reflexivity. Qed.

Lemma setTasks_same (f : list Task -> list Task) (st : State) :
  f (tasks st) = tasks st -> setTasks f st = st.
Proof. intros H. unfold setTasks. rewrite H. destruct st. reflexivity. Qed.

Lemma statusChange_projectIds (taskId : string) (s : TaskStatus) (st : State) :
  List.map Task.projectId (tasks (handleStatusChange taskId s st)) =
  List.map Task.projectId (tasks st).
Proof.
  unfold handleStatusChange. simpl. rewrite List.map_map. apply List.map_ext.
  intros t. destruct (String.eqb (Task.id t) taskId); reflexivity.
Qed.

Lemma statusChange_status (taskId : string) (s : TaskStatus) (st : State) (t' : Task) :
  t' ∈ tasks (handleStatusChange taskId s st) -> Task.id t' = taskId -> Task.status t' = s.
Proof.
  unfold handleStatusChange. simpl.
  intros Hin Hid. apply list_elem_of_In, in_map_iff in Hin as (t & Ht & _).
  destruct (String.eqb (Task.id t) taskId) eqn:E; subst t'; [reflexivity|].
  apply String.eqb_neq in E. contradiction.
Qed.

(** A status change touches nothing but the status of the tasks with
    the given id: ids, projects and positions stay, every other task is
    as it was, and the changed tasks keep their other fields. *)
Theorem handleStatusChange_effect (taskId : string) (s : TaskStatus) (st : State) :
  let st' := handleStatusChange taskId s st in
  List.map Task.id (tasks st') = List.map Task.id (tasks st) /\
  List.map Task.projectId (tasks st') = List.map Task.projectId (tasks st) /\
  (forall i t, tasks st !! i = Some t -> Task.id t <> taskId ->
               tasks st' !! i = Some t) /\
  (forall i t, tasks st !! i = Some t -> Task.id t = taskId ->
               tasks st' !! i = Some (withStatus t s)) /\
  (forall t', t' ∈ tasks st' -> Task.id t' = taskId -> Task.status t' = s) /\
  projects st' = projects st /\
  activeProjectId st' = activeProjectId st /\
  taskToEdit st' = taskToEdit st.
Proof.
  unfold handleStatusChange. simpl.
  split.
  { rewrite List.map_map. apply List.map_ext. intros t.
    destruct (String.eqb (Task.id t) taskId); reflexivity. }
  split.
  { rewrite List.map_map. apply List.map_ext. intros t.
    destruct (String.eqb (Task.id t) taskId); reflexivity. }
  split.
  { intros i t Hi Hne. rewrite AppFacts.lookup_map, Hi. simpl.
    apply String.eqb_neq in Hne. rewrite Hne. reflexivity. }
  split.
  { intros i t Hi Heq. rewrite AppFacts.lookup_map, Hi. simpl.
    apply String.eqb_eq in Heq. rewrite Heq. reflexivity. }
  split; [|repeat split].
  intros t' Hin Hid. apply list_elem_of_In, in_map_iff in Hin as (t & Ht & _).
  destruct (String.eqb (Task.id t) taskId) eqn:E; subst t'; [reflexivity|].
  apply String.eqb_neq in E. contradiction.
Qed.

Lemma handleStatusChange_effect_witness :
  tasks (handleStatusChange "t2" DONE (initial None 0)) !! 1%nat
  = Some (withStatus Sample.checkout DONE).
Proof.
  refine (proj1 (proj2 (proj2 (proj2
    (handleStatusChange_effect "t2" DONE (initial None 0))))) 1%nat Sample.checkout _ _);
    reflexivity.
Defined.

(** Two changes of one task: the later one wins; changes of two
    different ids can be made in either order. *)
Theorem handleStatusChange_compose
  (a b : string) (s1 s2 : TaskStatus) (st : State) :
  handleStatusChange a s2 (handleStatusChange a s1 st) = handleStatusChange a s2 st /\
  (a <> b ->
   handleStatusChange a s1 (handleStatusChange b s2 st) =
   handleStatusChange b s2 (handleStatusChange a s1 st)).
Proof.
  unfold handleStatusChange, setTasks. simpl. split.
  - f_equal. rewrite List.map_map. apply List.map_ext. intros t.
    destruct (String.eqb (Task.id t) a) eqn:E; simpl; rewrite E; reflexivity.
  - intros Hab. f_equal. rewrite !List.map_map. apply List.map_ext. intros t.
    destruct (String.eqb (Task.id t) a) eqn:Ea, (String.eqb (Task.id t) b) eqn:Eb;
      simpl; rewrite ?Ea, ?Eb; try reflexivity.
    apply String.eqb_eq in Ea, Eb. congruence.
Qed.

Lemma handleStatusChange_compose_witness :
  handleStatusChange "t1" TODO (handleStatusChange "t2" DONE (initial None 0)) =
  handleStatusChange "t2" DONE (handleStatusChange "t1" TODO (initial None 0)).
Proof.
  apply (proj2 (handleStatusChange_compose "t1" "t2" TODO DONE (initial None 0))).
  discriminate.
Defined.

(** A drop with no task id in the drag data changes nothing, and so
    does a drop of a card on the column it is in; any other drop gives
    the column's status to the tasks with the dragged id and moves no
    card to another project. *)
Theorem handleDrop_effect (status : TaskStatus) (taskId : string) (st : State) :
  (taskId = "" -> handleDrop status taskId st = st) /\
  ((forall t, t ∈ tasks st -> Task.id t = taskId -> Task.status t = status) ->
   handleDrop status taskId st = st) /\
  (taskId <> "" ->
   (forall t', t' ∈ tasks (handleDrop status taskId st) ->
               Task.id t' = taskId -> t' ∈ column status (handleDrop status taskId st)
               \/ Task.projectId t' <> activeProjectId st) /\
   length (projectTasks (handleDrop status taskId st)) = length (projectTasks st)).
Proof.
  unfold handleDrop. split; [intros ->; reflexivity|]. split.
  - intros Hsame. destruct (JsString.truthy taskId); [|reflexivity].
    unfold handleStatusChange. apply setTasks_same.
    apply AppFacts.map_id_when. apply Forall_forall. intros t Ht.
    destruct (String.eqb (Task.id t) taskId) eqn:E; [|reflexivity].
    apply String.eqb_eq in E. rewrite <- (Hsame t Ht E). apply withStatus_same.
  - intros Hne. apply JsStringFacts.truthy_spec in Hne. rewrite Hne.
    pose proof (statusChange_projectIds taskId status st) as Hproj.
    pose proof (statusChange_status taskId status st) as Hstatus.
    assert (Hactive : activeProjectId (handleStatusChange taskId status st)
                      = activeProjectId st) by reflexivity.
    split.
    + intros t' Hin Hid.
      destruct (String.eqb (Task.projectId t') (activeProjectId st)) eqn:E.
      * left. unfold column, projectTasks.
        rewrite list_elem_of_In, filter_In, filter_In, <- list_elem_of_In.
        rewrite Hactive, E, bool_decide_eq_true. auto.
      * right. apply String.eqb_neq. exact E.
    + unfold projectTasks. rewrite Hactive.
      apply (filter_length_same_key Task.projectId
               (fun k => String.eqb k (activeProjectId st))).
      exact Hproj.
Qed.

Lemma handleDrop_effect_witness :
  length (projectTasks (handleDrop DONE "t2" (initial None 0))) =
  length (projectTasks (initial None 0)).
Proof.
  refine (proj2 (proj2 (proj2 (handleDrop_effect DONE "t2" (initial None 0))) _)).
  discriminate.
Defined.

(** The board lets a user change a status only where [canDrag] holds:
    the drag of a card that may not be dragged stores no id, and the
    drop that follows changes nothing. An employee whose first name is
    not in the assignee is in that case. *)
Theorem drag_without_permission
  (u : User) (t : Task) (status : TaskStatus) (st : State) :
  User.role u = EMPLOYEE ->
  JsString.includes
    (JsString.toLowerCase (hd "" (JsString.split " " (User.name u))))
    (JsString.toLowerCase (Task.assignee t)) = false ->
  dragData (Some u) t = "" /\
  handleDrop status (dragData (Some u) t) st = st.
Proof.
  intros Hrole Hno.
  assert (Hdrag : Permission.canDrag (Some u) t = false).
  { unfold Permission.canDrag, Permission.notEmployee, Permission.isAssignee.
    rewrite bool_decide_eq_true_2 by exact Hrole. rewrite Hno.
    simpl. apply andb_false_r. }
  unfold dragData, handleDrop. rewrite Hdrag. split; reflexivity.
Qed.

Lemma drag_without_permission_witness :
  handleDrop DONE (dragData (Some Auth.employee) Sample.listing) (initial (Some Auth.employee) 0)
  = initial (Some Auth.employee) 0.
Proof.
  exact (proj2 (drag_without_permission Auth.employee Sample.listing DONE
                  (initial (Some Auth.employee) 0) eq_refl eq_refl)).
Defined.

End BoardFacts.

(** ** Deleting tasks, ids and projects *)

Module StoreFacts.
Import App Board.

Lemma filter_all {A} (f : A -> bool) (l : list A) :
  Forall (fun x => f x = true) l -> List.filter f l = l.
Proof. induction 1 as [|x l Hx _ IH]; simpl; [reflexivity|]. rewrite Hx, IH. reflexivity. Qed.

Lemma findTask_absent (i : string) (l : list Task) :
  Forall (fun t => Task.id t <> i) l -> findTask i l = None.
Proof.
  unfold findTask. induction 1 as [|t l Ht _ IH]; simpl; [reflexivity|].
  apply String.eqb_neq in Ht. rewrite Ht. exact IH.
Qed.

(** A confirmed deletion by a user who is not an employee removes
    every task with the given id and nothing else: the other tasks stay
    in their order, a lookup by the id finds nothing, and deleting
    again changes nothing. A declined one leaves the state as it was;
    the dialog is shown in both cases. *)
Theorem handleDeleteTask_confirmed
  (confirm : string -> bool) (taskId : string) (st : State) :
  isEmployee (user st) = false ->
  let q := "Confirm protocol: Delete this objective?" in
  snd (handleDeleteTask confirm taskId st) = [Confirm q] /\
  (confirm q = false -> fst (handleDeleteTask confirm taskId st) = st) /\
  (confirm q = true ->
   let st' := fst (handleDeleteTask confirm taskId st) in
   tasks st' = List.filter (fun t => negb (String.eqb (Task.id t) taskId)) (tasks st) /\
   Forall (fun t => Task.id t <> taskId) (tasks st') /\
   findTask taskId (tasks st') = None /\
   (forall t, t ∈ tasks st -> Task.id t <> taskId -> t ∈ tasks st') /\
   (forall t, t ∈ tasks st' -> t ∈ tasks st) /\
   fst (handleDeleteTask confirm taskId st') = st' /\
   projects st' = projects st /\ activeProjectId st' = activeProjectId st).
Proof.
  intros Hrole q. subst q. unfold handleDeleteTask. rewrite Hrole.
  destruct (confirm _) eqn:Hc; cbn [fst snd].
  - split; [reflexivity|]. split; [discriminate|]. intros _.
    assert (Hnone : Forall (fun t => Task.id t <> taskId)
              (List.filter (fun t => negb (String.eqb (Task.id t) taskId)) (tasks st))).
    { apply Forall_forall. intros t Ht.
      apply list_elem_of_In, filter_In in Ht as [_ Ht].
      apply negb_true_iff, String.eqb_neq in Ht. exact Ht. }
    split; [reflexivity|]. split; [exact Hnone|].
    split; [apply findTask_absent; exact Hnone|].
    split.
    { intros t Ht Hne. apply list_elem_of_In, filter_In. split.
      - apply list_elem_of_In. exact Ht.
      - apply negb_true_iff, String.eqb_neq. exact Hne. }
    split.
    { intros t Ht. apply list_elem_of_In, filter_In in Ht as [Ht _].
      apply list_elem_of_In. exact Ht. }
    split; [|split; reflexivity].
    cbn [user setTasks]. rewrite Hrole. cbn [fst].
    apply BoardFacts.setTasks_same. cbn [tasks setTasks].
    apply filter_all. eapply Forall_impl; [exact Hnone|].
    intros t Hne. simpl in Hne. apply negb_true_iff, String.eqb_neq. exact Hne.
  - split; [reflexivity|]. split; [reflexivity | discriminate].
Qed.

Lemma handleDeleteTask_confirmed_witness :
  snd (handleDeleteTask (fun _ => true) "t2" (initial (Some Auth.manager) 0)) =
  [Confirm "Confirm protocol: Delete this objective?"].
Proof.
  exact (proj1 (handleDeleteTask_confirmed (fun _ => true) "t2"
                  (initial (Some Auth.manager) 0) eq_refl)).
Defined.

(** Creating a task whose id is not in use and deleting it again gives
    back the list of tasks as it was. *)
Theorem create_then_delete
  (confirm : string -> bool) (rid : string) (now : Z) (d : TaskData) (st : State) :
  taskToEdit st = None ->
  isEmployee (user st) = false ->
  confirm "Confirm protocol: Delete this objective?" = true ->
  Forall (fun t => Task.id t <> rid) (tasks st) ->
  tasks (fst (handleDeleteTask confirm rid (handleSaveTask rid now d st))) = tasks st.
Proof.
  intros He Hrole Hc Hfresh. unfold handleDeleteTask, handleSaveTask.
  rewrite He. simpl. rewrite Hrole, Hc. simpl.
  rewrite List.filter_app. simpl. rewrite String.eqb_refl. simpl.
  rewrite app_nil_r. apply filter_all.
  eapply Forall_impl; [exact Hfresh|]. intros t Hne. simpl in Hne.
  apply negb_true_iff, String.eqb_neq. exact Hne.
Qed.

Lemma create_then_delete_witness :
  tasks (fst (handleDeleteTask (fun _ => true) "k7"
                (handleSaveTask "k7" 5 Sample.draftA (initial (Some Auth.manager) 0))))
  = tasks (initial (Some Auth.manager) 0).
Proof.
  apply create_then_delete; try reflexivity.
  repeat constructor; discriminate.
Defined.

Lemma NoDup_map_filter {A B} `{EqDecision B} (key : A -> B) (f : A -> bool) (l : list A) :
  NoDup (List.map key l) -> NoDup (List.map key (List.filter f l)).
Proof.
  induction l as [|x l IH]; simpl; [auto|].
  rewrite NoDup_cons. intros [Hx Hl]. destruct (f x); simpl; [|auto].
  apply NoDup_cons. split; [|auto].
  intros Hin. apply Hx. apply list_elem_of_In, in_map_iff in Hin as (y & Hy & Hin).
  apply filter_In in Hin as [Hin _].
  apply list_elem_of_In, in_map_iff. exists y. auto.
Qed.

(** Task ids stay unique along every action but one: the only way to
    reach a state with a repeated id from a state without is the
    creation of a task whose random id is in use already. *)
Theorem step_ids_unique (st st' : State) :
  step st st' ->
  NoDup (List.map Task.id (tasks st)) ->
  NoDup (List.map Task.id (tasks st')) \/
  exists rid now d,
    taskToEdit st = None /\ st' = handleSaveTask rid now d st /\
    rid ∈ List.map Task.id (tasks st).
Proof.
  intros Hstep Hnd. destruct Hstep; simpl; try (left; exact Hnd).
  - unfold handleSaveTask. destruct (taskToEdit st) as [e|] eqn:He; simpl.
    + left. rewrite List.map_map.
      erewrite List.map_ext; [exact Hnd|]. intros t. simpl.
      destruct (String.eqb (Task.id t) (Task.id e)); reflexivity.
    + destruct (decide (rid ∈ List.map Task.id (tasks st))) as [Hin|Hnin].
      * right. exists rid, now, d. auto.
      * left. rewrite List.map_app. simpl. apply NoDup_app. split; [exact Hnd|].
        split; [|apply NoDup_singleton].
        intros x Hx Hx'. apply list_elem_of_singleton in Hx'. subst x. auto.
  - left. unfold handleDeleteTask. destruct (isEmployee (user st)); [exact Hnd|].
    destruct (confirm _); simpl; [|exact Hnd]. apply NoDup_map_filter. exact Hnd.
  - left. rewrite List.map_map.
    erewrite List.map_ext; [exact Hnd|]. intros t. simpl.
    destruct (String.eqb (Task.id t) taskId); reflexivity.
Qed.

Lemma step_ids_unique_witness :
  NoDup (List.map Task.id (tasks (handleStatusChange "t1" TODO (initial None 0)))) \/
  exists rid now d,
    taskToEdit (initial None 0) = None /\
    handleStatusChange "t1" TODO (initial None 0) = handleSaveTask rid now d (initial None 0) /\
    rid ∈ List.map Task.id (tasks (initial None 0)).
Proof.
  apply step_ids_unique; [apply step_statusChange|].
  apply NoDup_ListNoDup. simpl.
  repeat (constructor; [simpl; intuition discriminate|]). constructor.
Defined.

(** No action removes or alters a project: the list only grows at its
    end, so the three first projects stay the first three. *)
Theorem projects_only_grow (u : option User) (loaded : Z) (st : State) :
  reachable u loaded st ->
  INITIAL_PROJECTS `prefix_of` projects st /\
  forall st', step st st' -> projects st `prefix_of` projects st'.
Proof.
  assert (Hstep : forall a b, step a b -> projects a `prefix_of` projects b).
  { intros a b Hab. destruct Hab; simpl; try reflexivity.
    - apply prefix_app_r. reflexivity.
    - unfold handleSaveTask. destruct (taskToEdit st0); reflexivity.
    - unfold handleDeleteTask. destruct (isEmployee _); [reflexivity|].
      destruct (confirm _); reflexivity. }
  intros Hreach. split; [|exact (Hstep st)].
  induction Hreach as [|a b _ IH Hab]; [reflexivity|].
  etransitivity; [exact IH | exact (Hstep a b Hab)].
Qed.

Lemma projects_only_grow_witness :
  INITIAL_PROJECTS `prefix_of`
    projects (handleCreateProject "z9" "Project Titan" "Objective details"
                (initial (Some Auth.manager) 0)).
Proof.
  refine (proj1 (projects_only_grow (Some Auth.manager) 0 _ _)).
  eapply reach_step; [apply reach_initial | apply step_createProject].
Defined.

(** The board of a project created under an id that is not in use is
    empty, and the first task created there is its only card. *)
Theorem new_project_board
  (rid name description : string) (tid : string) (now : Z) (d : TaskData) (st : State) :
  referentialIntegrity st ->
  rid ∉ projectIds st ->
  taskToEdit st = None ->
  let st1 := handleCreateProject rid name description st in
  activeProjectId st1 = rid /\
  projectTasks st1 = [] /\
  projectTasks (handleSaveTask tid now d st1) = [newTask tid now rid d].
Proof.
  intros [_ Htasks] Hfresh He. cbv zeta.
  assert (Hnone : List.filter (fun t => String.eqb (Task.projectId t) rid) (tasks st) = []).
  { revert Htasks. induction (tasks st) as [|t l IH]; intros Hall; [reflexivity|].
    apply Forall_cons in Hall as [Ht Hl]. simpl.
    destruct (String.eqb (Task.projectId t) rid) eqn:E; [|exact (IH Hl)].
    apply String.eqb_eq in E. rewrite E in Ht. contradiction. }
  split; [reflexivity|]. split; [exact Hnone|].
  unfold projectTasks, handleSaveTask, handleCreateProject. simpl. rewrite He. simpl.
  rewrite List.filter_app, Hnone. simpl. rewrite String.eqb_refl. reflexivity.
Qed.

Lemma new_project_board_witness :
  projectTasks
    (handleSaveTask "k7" 5 Sample.draftA
       (handleCreateProject "z9" "Project Titan" "Objective details"
          (initial (Some Auth.manager) 0)))
  = [newTask "k7" 5 "z9" Sample.draftA].
Proof.
  refine (proj2 (proj2 (new_project_board "z9" "Project Titan" "Objective details"
                          "k7" 5 Sample.draftA (initial (Some Auth.manager) 0) _ _ _))).
  - apply AppFacts.initial_referentialIntegrity.
  - intros H. apply list_elem_of_In in H. simpl in H. intuition discriminate.
  - reflexivity.
Defined.

End StoreFacts.

(** ** The edit dialog *)

Module FormFacts.
Import App.

(** Opening the dialog on a stored task and submitting the form as it
    was filled writes the task back with two fields possibly changed:
    an estimate of 0 hours becomes 4, and a missing technical plan
    becomes the empty string. With another estimate and a plan present
    the list of tasks is as before. *)
Theorem submit_untouched (rid : string) (now : Z) (e : Task) (st : State) :
  let st0 := openEditTaskModal e st in
  let st' := TaskModal.handleSubmit rid now (TaskForm.openForm st0) st0 in
  (forall i, tasks st !! i = Some e ->
     exists t', tasks st' !! i = Some t' /\
       Task.id t' = Task.id e /\ Task.projectId t' = Task.projectId e /\
       Task.createdAt t' = Task.createdAt e /\
       Task.title t' = Task.title e /\ Task.description t' = Task.description e /\
       Task.category t' = Task.category e /\ Task.priority t' = Task.priority e /\
       Task.assignee t' = Task.assignee e /\ Task.status t' = Task.status e /\
       Task.acceptanceCriteria t' = Task.acceptanceCriteria e /\
       Task.estimatedHours t' =
         (if Z.eqb (Task.estimatedHours e) 0 then 4 else Task.estimatedHours e) /\
       Task.technicalPlan t' =
         Some (match Task.technicalPlan e with Some p => p | None => "" end)) /\
  (Task.estimatedHours e <> 0 -> is_Some (Task.technicalPlan e) ->
   (forall t, t ∈ tasks st -> Task.id t = Task.id e -> t = e) ->
   tasks st' = tasks st) /\
  isModalOpen st' = false /\ taskToEdit st' = None.
Proof.
  cbv zeta. unfold TaskModal.handleSubmit, handleSaveTask, openEditTaskModal,
    TaskForm.openForm. simpl. split; [|split; [|split; reflexivity]].
  - intros i Hi. rewrite AppFacts.lookup_map, Hi. simpl.
    rewrite String.eqb_refl. eexists. split; [reflexivity|]. simpl. repeat split.
  - intros Hh [p Hp] Hsame. apply AppFacts.map_id_when.
    apply Forall_forall. intros t Ht.
    destruct (String.eqb (Task.id t) (Task.id e)) eqn:E; [|reflexivity].
    apply String.eqb_eq in E. rewrite (Hsame t Ht E).
    apply Z.eqb_neq in Hh. unfold merge, TaskModal.taskData, TaskForm.loadForm.
    rewrite Hh, Hp. destruct e. simpl in *. subst. reflexivity.
Qed.

Lemma submit_untouched_witness :
  let e := Task.mk "t9" "p1" "Spike" "" TODO GENERAL "Mike" LOW [] 0 None 7 in
  let st := setTasks (fun _ => [e]) (initial (Some Auth.manager) 0) in
  Task.estimatedHours <$>
    tasks (TaskModal.handleSubmit "" 0
             (TaskForm.openForm (openEditTaskModal e st)) (openEditTaskModal e st)) !! 0%nat
  = Some 4.
Proof.
  cbv zeta.
  destruct (proj1 (submit_untouched "" 0
              (Task.mk "t9" "p1" "Spike" "" TODO GENERAL "Mike" LOW [] 0 None 7)
              (setTasks (fun _ => [Task.mk "t9" "p1" "Spike" "" TODO GENERAL "Mike" LOW [] 0 None 7])
                 (initial (Some Auth.manager) 0))) 0%nat eq_refl)
    as (t' & Ht' & H).
  rewrite Ht'. simpl. f_equal. apply H.
Defined.

End FormFacts.

(** ** The charts of the dashboard *)

Module DashboardFacts.
Import Dashboard.

Lemma sum_positive_slices (l : list Slice) :
  list_sum (List.map value (List.filter (fun d => (0 <? value d)%nat) l)) =
  list_sum (List.map value l).
Proof.
  induction l as [|d l IH]; [reflexivity|]. simpl.
  destruct (0 <? value d)%nat eqn:E; simpl; rewrite IH; [reflexivity|].
  apply Nat.ltb_ge in E. lia.
Qed.

Lemma sum_positive_bars (l : list Bar) :
  list_sum (List.map barValue (List.filter (fun d => (0 <? barValue d)%nat) l)) =
  list_sum (List.map barValue l).
Proof.
  induction l as [|d l IH]; [reflexivity|]. simpl.
  destruct (0 <? barValue d)%nat eqn:E; simpl; rewrite IH; [reflexivity|].
  apply Nat.ltb_ge in E. lia.
Qed.

Lemma countCategory_total (tasks : list Task) :
  (countCategory FRONTEND tasks + countCategory API tasks + countCategory DEVOPS tasks +
   countCategory DESIGN tasks + countCategory GENERAL tasks)%nat = length tasks.
Proof.
  unfold countCategory. induction tasks as [|t l IH]; [reflexivity|].
  simpl. destruct (Task.category t); simpl; lia.
Qed.

(** Both charts account for every task once: the values of the status
    slices add up to the number of tasks, and so do the values of the
    category bars; a slice or bar that is shown has a value above 0,
    so with no tasks both charts are empty. *)
Theorem charts_account_for_tasks (tasks : list Task) :
  list_sum (List.map value (statusData tasks)) = length tasks /\
  list_sum (List.map barValue (categoryData tasks)) = length tasks /\
  Forall (fun d => (0 < value d)%nat) (statusData tasks) /\
  Forall (fun d => (0 < barValue d)%nat) (categoryData tasks) /\
  (tasks = [] -> statusData tasks = [] /\ categoryData tasks = []).
Proof.
  split.
  { unfold statusData. rewrite sum_positive_slices. simpl.
    pose proof (BoardFacts.filter_status_lengths tasks) as H.
    unfold countStatus. lia. }
  split.
  { unfold categoryData. rewrite sum_positive_bars. simpl.
    pose proof (countCategory_total tasks). lia. }
  split.
  { apply Forall_forall. intros d Hd. unfold statusData in Hd.
    apply list_elem_of_In, filter_In in Hd as [_ Hd]. apply Nat.ltb_lt. exact Hd. }
  split.
  { apply Forall_forall. intros d Hd. unfold categoryData in Hd.
    apply list_elem_of_In, filter_In in Hd as [_ Hd]. apply Nat.ltb_lt. exact Hd. }
  intros ->. split; reflexivity.
Qed.

Lemma charts_account_for_tasks_witness :
  list_sum (List.map value (statusData (App.tasks (App.initial None 0)))) =
  length (App.tasks (App.initial None 0)).
Proof. exact (proj1 (charts_account_for_tasks (App.tasks (App.initial None 0)))). Defined.

End DashboardFacts.

(** ** The chat *)

Module ChatFacts.
Import JsString Chat.

(** An input that [trim] empties sends nothing. Any other input adds
    the user's message to the end of the list, clears the input, and
    calls the service with one history entry per earlier message (its
    role and its text, in order, the new message not among them) and
    with the input itself as the message, or, when the lower-cased
    input mentions "status" or "tasks", with a text that ends with a
    blank line, "Operative Query: " and the input. When the call ends,
    the reply is added if it is a non-empty text, the fixed notice is
    added after a rejection, and nothing is added otherwise; the
    loading flag is off. Earlier messages are never changed. *)
Theorem handleSendMessage_exchange
  (now now' : Z) (app : App.State) (chat : State) (outcome : Outcome) :
  (trim (chatInput chat) = "" -> sendStart now app chat = None) /\
  (trim (chatInput chat) <> "" ->
   exists chat1 request,
     sendStart now app chat = Some (chat1, request) /\
     chatMessages chat1 =
       (chatMessages chat ++ [mkMessage user (chatInput chat) now])%list /\
     chatInput chat1 = "" /\
     isChatLoading chat1 = true /\
     length (history request) = length (chatMessages chat) /\
     (forall i m, chatMessages chat !! i = Some m ->
        history request !! i = Some (mkEntry (role m) [text m])) /\
     (includes "status" (toLowerCase (chatInput chat)) = false ->
      includes "tasks" (toLowerCase (chatInput chat)) = false ->
      message request = chatInput chat) /\
     (includes "status" (toLowerCase (chatInput chat)) = true \/
      includes "tasks" (toLowerCase (chatInput chat)) = true ->
      exists context,
        message request =
          context ++ String (ascii_of_nat 10) (String (ascii_of_nat 10)
                       ("Operative Query: " ++ chatInput chat))) /\
     chatMessages (sendFinish outcome now' chat1) =
       (chatMessages chat1 ++
        match outcome with
        | Resolved (Some responseText) =>
            if String.eqb responseText "" then []
            else [mkMessage model responseText now']
        | Resolved None => []
        | Rejected =>
            [mkMessage model "Connection interrupted. Secure link failed." now']
        end)%list /\
     chatInput (sendFinish outcome now' chat1) = "" /\
     isChatLoading (sendFinish outcome now' chat1) = false).
Proof.
  unfold sendStart. split.
  - intros Hblank. rewrite Hblank. reflexivity.
  - intros Htrim. apply JsStringFacts.truthy_spec in Htrim. rewrite Htrim. simpl.
    eexists. eexists. split; [reflexivity|]. simpl.
    split; [reflexivity|]. split; [reflexivity|]. split; [reflexivity|].
    split; [apply length_map|].
    split.
    { intros i m Hm. rewrite AppFacts.lookup_map, Hm. reflexivity. }
    unfold contextPrompt. split.
    { intros -> ->. reflexivity. }
    split.
    { intros Hkey. exists (summary app).
      assert (Hor : includes "status" (toLowerCase (chatInput chat))
                    || includes "tasks" (toLowerCase (chatInput chat)) = true).
      { destruct Hkey as [-> | ->]; [reflexivity | apply orb_true_r]. }
      rewrite Hor. unfold newline.
      rewrite !JsonFacts.append_cons, !JsonFacts.append_nil_l. reflexivity. }
    split; [|split; reflexivity].
    unfold sendFinish. cbn [chatMessages].
    destruct outcome as [[responseText|]|].
    + unfold truthy. destruct (String.eqb responseText ""); simpl;
        [rewrite app_nil_r|]; reflexivity.
    + rewrite app_nil_r. reflexivity.
    + reflexivity.
Qed.

Lemma handleSendMessage_exchange_witness :
  sendStart 5 (App.initial None 0) (mkState [] "   " false) = None /\
  exists chat1 request,
    sendStart 5 (App.initial None 0) (mkState (chatMessages (initial 0)) "Status?" false)
    = Some (chat1, request) /\
    history request =
      [mkEntry model ["Ready for duty. How can I assist with the mission objectives?"]].
Proof.
  split.
  - exact (proj1 (handleSendMessage_exchange 5 6 (App.initial None 0)
                    (mkState [] "   " false) Rejected) eq_refl).
  - destruct (proj2 (handleSendMessage_exchange 5 6 (App.initial None 0)
                       (mkState (chatMessages (initial 0)) "Status?" false) Rejected))
      as (chat1 & request & Hstart & _).
    + vm_compute. discriminate.
    + exists chat1, request. split; [exact Hstart|].
      injection Hstart as _ <-. reflexivity.
Defined.

(** An input of no-break spaces is blank too. *)
Example send_no_break_space :
  sendStart 5 (App.initial None 0)
    (mkState [] (String (ascii_of_nat 160) (String (ascii_of_nat 160) "")) false) = None.
Proof. reflexivity. Qed.

End ChatFacts.

(** ** The call timer *)

Module ClockFacts.
Import Clock.

Lemma pretty_nonneg_digits (n : Z) : 0 <= n -> Json.allDigits (pretty n) = true.
Proof.
  intros Hn. unfold pretty, pretty_Z. destruct n as [|p|p]; [reflexivity| |lia].
  unfold pretty, pretty_positive, pretty, pretty_N.
  rewrite decide_False by discriminate.
  destruct (JsonFacts.pretty_N_go_digits (N.pos p) "" ltac:(lia))
    as (d & ds & Heq & Hd & _ & Hds).
  rewrite Heq, JsonFacts.append_nil_r. simpl. rewrite Hd, Hds. reflexivity.
Qed.

Lemma seconds_two_digits (n : nat) :
  (n < 60)%nat ->
  exists a b, padStart2 (pretty (Z.of_nat n)) = String a (String b "") /\
    twoDigitValue (String a (String b "")) = Some (Z.of_nat n).
Proof.
  intros Hn.
  do 60 (destruct n as [|n]; [eexists; eexists; split; vm_compute; reflexivity|]).
  lia.
Qed.

Lemma split_at_colon (a b x y : string) :
  Json.allDigits a = true -> Json.allDigits b = true ->
  a ++ String ":" x = b ++ String ":" y -> a = b /\ x = y.
Proof.
  revert b. induction a as [|c a IH]; intros [|c' b] Ha Hb H.
  - rewrite !JsonFacts.append_nil_l in H. split; congruence.
  - rewrite JsonFacts.append_nil_l, JsonFacts.append_cons in H.
    injection H as <- _. simpl in Hb. discriminate.
  - rewrite JsonFacts.append_nil_l, JsonFacts.append_cons in H.
    injection H as -> _. simpl in Ha. discriminate.
  - rewrite !JsonFacts.append_cons in H. injection H as -> H.
    simpl in Ha, Hb. apply andb_prop in Ha as [_ Ha]. apply andb_prop in Hb as [_ Hb].
    destruct (IH b Ha Hb H) as [-> ->]. split; reflexivity.
Qed.

Lemma formatTime_shape (s : Z) :
  0 <= s ->
  exists a b, formatTime s = pretty (s / 60) ++ String ":" (String a (String b "")) /\
    twoDigitValue (String a (String b "")) = Some (s mod 60).
Proof.
  intros Hs. unfold formatTime. cbv zeta.
  rewrite Z.rem_mod_nonneg by lia.
  pose proof (Z.mod_pos_bound s 60 ltac:(lia)) as Hr.
  destruct (seconds_two_digits (Z.to_nat (s mod 60)) ltac:(lia)) as (a & b & Hp & Hv).
  rewrite Z2Nat.id in Hp, Hv by lia.
  exists a, b. rewrite Hp. split; [reflexivity | exact Hv].
Qed.

(** For a whole number of seconds from 0 up to
    [Number.MAX_SAFE_INTEGER], the timer shows the minutes in decimal,
    a colon, and the seconds modulo 60 as exactly two digits; two
    different such readings are never shown alike. *)
Theorem formatTime_faithful (s : Z) :
  JsNumber.isSafe s ->
  (exists a b,
     formatTime s = pretty (s / 60) ++ String ":" (String a (String b "")) /\
     twoDigitValue (String a (String b "")) = Some (s mod 60)) /\
  (forall s', JsNumber.isSafe s' -> formatTime s' = formatTime s -> s' = s).
Proof.
  intros [Hs _]. split; [apply formatTime_shape; exact Hs|].
  intros s' [Hs' _] Heq.
  destruct (formatTime_shape s Hs) as (a & b & Hf & Hv).
  destruct (formatTime_shape s' Hs') as (a' & b' & Hf' & Hv').
  rewrite Hf, Hf' in Heq.
  apply split_at_colon in Heq as [Hm Hsec];
    [| apply pretty_nonneg_digits; apply Z.div_pos; lia
     | apply pretty_nonneg_digits; apply Z.div_pos; lia].
  apply (inj pretty) in Hm. rewrite Hsec in Hv'. rewrite Hv in Hv'.
  injection Hv' as Hr.
  rewrite (Z.div_mod s 60), (Z.div_mod s' 60) by lia. lia.
Qed.

Lemma formatTime_faithful_witness :
  formatTime 125 = "2:05" /\ (formatTime 65 = formatTime 125 -> 65 = 125).
Proof.
  split; [reflexivity|].
  refine (proj2 (formatTime_faithful 125 _) 65 _);
    unfold JsNumber.isSafe, JsNumber.MAX_SAFE_INTEGER; lia.
Defined.

End ClockFacts.

(** ** The history given to the estimate service *)

Module PromptFacts.
Import Prompt.

Lemma relevantTasks_length (history : list Task) :
  length (relevantTasks history) =
  Nat.min 5 (length (List.filter (fun t => 0 <? Task.estimatedHours t) history)).
Proof. unfold relevantTasks. cbv zeta. rewrite length_skipn. lia. Qed.

Lemma filter_nil_iff (history : list Task) :
  List.filter (fun t => 0 <? Task.estimatedHours t) history = [] <->
  Forall (fun t => Task.estimatedHours t <= 0) history.
Proof.
  induction history as [|t l IH]; simpl.
  - split; [constructor | reflexivity].
  - destruct (0 <? Task.estimatedHours t) eqn:E.
    + split; [discriminate|]. intros H. apply Forall_cons in H as [H _].
      apply Z.ltb_lt in E. lia.
    + rewrite IH. apply Z.ltb_ge in E. split.
      * intros H. constructor; assumption.
      * intros H. apply Forall_cons in H as [_ H]. exact H.
Qed.

Lemma substring0_prefix (n : nat) (s : string) :
  (exists rest, s = substring0 n s ++ rest) /\
  String.length (substring0 n s) = Nat.min n (String.length s).
Proof.
  revert s. induction n as [|n IH]; intros s.
  - split; [exists s; reflexivity | reflexivity].
  - destruct s as [|c r]; [split; [exists ""; reflexivity | reflexivity]|].
    destruct (IH r) as [[rest Hrest] Hlen]. split.
    + exists rest. simpl. rewrite JsonFacts.append_cons, <- Hrest. reflexivity.
    + simpl. rewrite Hlen. reflexivity.
Qed.

(** The history part of the prompt is empty exactly when no task of
    the history has an estimate above 0. Otherwise it is the fixed
    heading, one line for each of the last tasks with such an estimate,
    at most five and in the order of the history, and the fixed
    instruction. A line gives the title in quotes, the category, the
    hours and the first 50 characters of the description followed by
    three dots. Hours are whole numbers up to
    [Number.MAX_SAFE_INTEGER]. *)
Theorem history_prompt (history : list Task) :
  let withHours := List.filter (fun t => 0 <? Task.estimatedHours t) history in
  let listed := skipn (length withHours - 5) withHours in
  let nl := String (ascii_of_nat 10) "" in
  let line := fun t =>
    "- Task: " ++ String Json.dquote (Task.title t ++ String Json.dquote
    (" (" ++ Dashboard.categoryName (Task.category t) ++ ") -> Took " ++
     pretty (Task.estimatedHours t) ++ "h. Desc: " ++
     substring0 50 (Task.description t) ++ "...")) in
  (formatTaskHistoryForPrompt history = "" <->
   Forall (fun t => Task.estimatedHours t <= 0) history) /\
  length listed = Nat.min 5 (length withHours) /\
  listed `suffix_of` withHours /\
  (withHours <> [] ->
   Forall (fun t => Task.estimatedHours t <= JsNumber.MAX_SAFE_INTEGER) history ->
   formatTaskHistoryForPrompt history =
     nl ++ "    TRAINING DATA (Historical Team Velocity & Estimates):" ++ nl ++
     "    " ++ Json.join nl (List.map line listed) ++ nl ++
     "    " ++ nl ++
     "    INSTRUCTION: Use the historical data above to calibrate your estimate. If the new task is similar to a previous one, align the hours." ++ nl ++
     "    ") /\
  (forall s, exists rest,
     s = substring0 50 s ++ rest /\
     String.length (substring0 50 s) = Nat.min 50 (String.length s)).
Proof.
  cbv zeta.
  pose proof (relevantTasks_length history) as Hlen. unfold relevantTasks in Hlen.
  cbv zeta in Hlen.
  split; [|split; [exact Hlen | split; [|split]]].
  - rewrite <- filter_nil_iff.
    unfold formatTaskHistoryForPrompt, relevantTasks. cbv zeta.
    destruct history as [|t0 l]; [split; reflexivity|].
    destruct (skipn _ _) as [|r rs] eqn:E.
    + split; [intros _ | reflexivity].
      destruct (List.filter (fun t => 0 <? Task.estimatedHours t) (t0 :: l));
        [reflexivity|]. cbn [length] in Hlen. lia.
    + split.
      * unfold Chat.newline. rewrite JsonFacts.append_cons. discriminate.
      * intros H. rewrite H in Hlen. cbn [length] in Hlen. lia.
  - eexists. symmetry. apply firstn_skipn.
  - intros Hne _.
    unfold formatTaskHistoryForPrompt, relevantTasks. cbv zeta.
    destruct history as [|t0 l]; [contradiction|].
    destruct (skipn _ _) as [|r rs] eqn:E.
    + destruct (List.filter (fun t => 0 <? Task.estimatedHours t) (t0 :: l));
        [contradiction|]. cbn [length] in Hlen. lia.
    + reflexivity.
  - intros s. destruct (substring0_prefix 50 s) as [[rest Hrest] Hl].
    exists rest. split; assumption.
Qed.

Lemma history_prompt_witness :
  formatTaskHistoryForPrompt
    [Task.mk "t9" "p1" "Spike" "" TODO GENERAL "Mike" LOW [] 0 None 7] = "".
Proof.
  apply (proj1 (history_prompt [Task.mk "t9" "p1" "Spike" "" TODO GENERAL "Mike" LOW [] 0 None 7])).
  constructor; [discriminate | constructor].
Defined.

(** The prompt for the two first tasks of the sample data. *)
Example history_prompt_sample :
  let nl := String (ascii_of_nat 10) "" in
  let q := String Json.dquote "" in
  formatTaskHistoryForPrompt [Sample.listing; Sample.checkout] =
  nl ++ "    TRAINING DATA (Historical Team Velocity & Estimates):" ++ nl ++
  "    - Task: " ++ q ++ "Product Listing Page (PLP)" ++ q ++
  " (FRONTEND) -> Took 12h. Desc: Implement grid layout with filtering and sorting f..." ++ nl ++
  "- Task: " ++ q ++ "Checkout API Integration" ++ q ++
  " (API) -> Took 8h. Desc: Integrate Stripe Payment Intents API for secure ch..." ++ nl ++
  "    " ++ nl ++
  "    INSTRUCTION: Use the historical data above to calibrate your estimate. If the new task is similar to a previous one, align the hours." ++ nl ++
  "    ".
Proof. vm_compute. reflexivity. Qed.

End PromptFacts.

(** ** The camera and the end of a session *)

Module LiveFacts.
Import Live.




End LiveFacts.

(** ** One context's handlers and the shared record *)

Module SharedFacts.
Import Meeting Shared Poll.

Lemma step_storage_frame (st st' : State) (k : string) :
  step st st' -> k <> KEY -> localStorage st' !! k = localStorage st !! k.
Proof.
  intros Hstep Hk. destruct Hstep as [u st|rid now topic st|st|st].
  - reflexivity.
  - unfold handleStartLiveMeeting. destruct (user st); [|reflexivity].
    simpl. apply lookup_insert_ne. congruence.
  - unfold handleJoinLiveMeeting.
    destruct (user st); [|reflexivity]. destruct (liveMeeting st); [|reflexivity].
    destruct (negb _); [|reflexivity]. simpl. apply lookup_insert_ne. congruence.
  - simpl. apply lookup_delete_ne. congruence.
Qed.

Lemma step_inSync (st st' : State) : step st st' -> inSync st -> inSync st'.
Proof.
  intros Hstep Hinv. destruct Hstep as [u st|rid now topic st|st|st].
  - exact Hinv.
  - unfold handleStartLiveMeeting. destruct (user st); [|exact Hinv].
    unfold inSync. simpl. apply lookup_insert_eq.
  - unfold handleJoinLiveMeeting.
    destruct (user st); [|exact Hinv]. destruct (liveMeeting st) eqn:Hm; [|exact Hinv].
    destruct (negb _); [|exact Hinv]. unfold inSync. simpl. apply lookup_insert_eq.
  - unfold inSync. simpl. apply lookup_delete_eq.
Qed.

Lemma inSync_poll (st : State) (v : Json.value) :
  inSync st -> checkMeeting (localStorage st) v = (cellValue st, Returned).
Proof.
  unfold inSync, cellValue. intros H. destruct (liveMeeting st) as [m|]; simpl in H.
  - apply PollFacts.checkMeeting_adopts. exact H.
  - apply PollFacts.checkMeeting_absent. exact H.
Qed.

(** Whatever one context does with its handlers, it touches no entry
    of [localStorage] but the meeting's. If the record agreed with its
    cell at first, it does so after every handler, and a poll in any
    other context then returns normally with the cell's meeting as
    JSON, or with [null] when the cell is empty. *)
Theorem poll_adopts_cell (st0 st : State) :
  reachable st0 st ->
  (forall k, k <> KEY -> localStorage st !! k = localStorage st0 !! k) /\
  (inSync st0 ->
   inSync st /\ forall v, checkMeeting (localStorage st) v = (cellValue st, Returned)).
Proof.
  induction 1 as [|st st' _ [IHframe IHsync] Hstep].
  - split; [reflexivity|]. intros H. split; [exact H|]. intros v. apply inSync_poll, H.
  - split.
    + intros k Hk. rewrite (step_storage_frame st st' k Hstep Hk). apply IHframe, Hk.
    + intros H0. destruct (IHsync H0) as [Hst _].
      pose proof (step_inSync st st' Hstep Hst) as Hst'.
      split; [exact Hst'|]. intros v. apply inSync_poll, Hst'.
Qed.

Lemma poll_adopts_cell_witness :
  checkMeeting (localStorage Sample.visited) Json.Null =
  (cellValue Sample.visited, Returned).
Proof.
  refine (proj2 (proj2 (poll_adopts_cell Sample.lobby Sample.visited _) _) Json.Null).
  - unfold Sample.visited, Sample.started.
    eapply reach_step; [eapply reach_step; [apply reach_first|]|]; constructor.
  - reflexivity.
Defined.

Lemma head_snoc (l : list string) (h x : string) :
  head l = Some h -> head (l ++ [x])%list = Some h.
Proof. destruct l; [discriminate | intros H; exact H]. Qed.

Lemma step_hostFirst (st st' : State) :
  step st st' ->
  hostFirst st /\ (forall m, liveMeeting st = Some m -> isActive m = true) ->
  hostFirst st' /\ (forall m, liveMeeting st' = Some m -> isActive m = true).
Proof.
  intros Hstep [Hinv Hact]. destruct Hstep as [u st|rid now topic st|st|st].
  - split; assumption.
  - unfold handleStartLiveMeeting. destruct (user st) as [u|]; [|split; assumption].
    unfold hostFirst, participantsOf. simpl. split.
    + intros m Hm. injection Hm as <-. simpl. rewrite lookup_total_insert_eq. reflexivity.
    + intros m Hm. injection Hm as <-. reflexivity.
  - destruct (user st) as [u|] eqn:Hu, (liveMeeting st) as [m|] eqn:Hm;
      try (unfold handleJoinLiveMeeting; rewrite Hu, ?Hm; split; assumption).
    rewrite <- Hm in Hact.
    destruct (decide (User.name u ∈ participantsOf st m)) as [Hin|Hnin].
    + rewrite (MeetingFacts.join_listed st u m Hu Hm Hin). split; assumption.
    + destruct (MeetingFacts.join_unlisted st u m Hu Hm Hnin) as (_ & Hm' & Hp & _).
      split; intros m' Hm''; rewrite Hm' in Hm''; injection Hm'' as <-.
      * rewrite Hp. apply head_snoc. apply Hinv. exact Hm.
      * apply Hact. exact Hm.
  - split; intros m Hm; discriminate.
Qed.

(** In a context that had no meeting at first, whatever sequence of
    logins, starts, joins and stops it runs, a meeting in its cell is
    active, lists its host first, and lists no name twice. *)
Theorem meeting_well_formed (st0 st : State) (m : LiveMeeting) :
  liveMeeting st0 = None -> reachable st0 st -> liveMeeting st = Some m ->
  isActive m = true /\
  exists others, participantsOf st m = hostName m :: others /\
                 (hostName m ∉ others) /\ NoDup others.
Proof.
  intros H0 Hreach Hm.
  assert (Hinv : hostFirst st /\ (forall m, liveMeeting st = Some m -> isActive m = true)).
  { clear Hm. induction Hreach as [|st st' _ IH Hstep].
    - split; intros m' Hm'; congruence.
    - exact (step_hostFirst st st' Hstep IH). }
  destruct Hinv as [Hfirst Hact]. split; [apply Hact, Hm|].
  pose proof (MeetingFacts.reachable_noDuplicates st0 st H0 Hreach m Hm) as Hnd.
  specialize (Hfirst m Hm).
  destruct (participantsOf st m) as [|h others]; [discriminate|].
  injection Hfirst as ->. apply NoDup_cons in Hnd as [Hnin Hnd].
  exists others. auto.
Qed.

Lemma meeting_well_formed_witness :
  isActive Sample.sprintReview = true /\
  exists others,
    participantsOf (handleJoinLiveMeeting Sample.visited) Sample.sprintReview
      = hostName Sample.sprintReview :: others /\
    (hostName Sample.sprintReview ∉ others) /\ NoDup others.
Proof.
  refine (meeting_well_formed Sample.lobby (handleJoinLiveMeeting Sample.visited)
            Sample.sprintReview _ _ _).
  - reflexivity.
  - unfold Sample.visited, Sample.started.
    eapply reach_step;
      [eapply reach_step; [eapply reach_step; [apply reach_first|]|]|]; constructor.
  - reflexivity.
Defined.

Lemma join_keeps_cell (st : State) :
  liveMeeting (handleJoinLiveMeeting st) = liveMeeting st /\
  (liveMeeting st = None -> handleJoinLiveMeeting st = st) /\
  (forall m, liveMeeting st = Some m ->
     participantsOf st m `prefix_of` participantsOf (handleJoinLiveMeeting st) m).
Proof.
  unfold handleJoinLiveMeeting.
  destruct (user st) as [u|]; [|split; [|split]; reflexivity].
  destruct (liveMeeting st) as [m|] eqn:Hm;
    [|split; [|split]; [exact Hm | reflexivity | discriminate]].
  destruct (negb _); [|split; [|split]; [exact Hm | discriminate | reflexivity]].
  simpl. split; [reflexivity|]. split; [discriminate|].
  intros m' [= <-]. unfold participantsOf. simpl.
  rewrite lookup_total_insert_eq. apply prefix_app_r. reflexivity.
Qed.

(** The button of the lobby never replaces a meeting that is active,
    and never creates one for a user who is neither admin nor manager:
    in both cases the cell is the one it was, the names already listed
    stay listed in their order, and with an empty cell nothing at all
    changes in the context. *)
Theorem lobby_button_keeps_meeting
  (rid : string) (now : Z) (room : Room.State) (app : State) :
  Room.isMeetingActive (liveMeeting app) = true \/
  Permission.isPrivileged (user app) = false ->
  let app' := snd (Room.handleStartMeeting rid now room app) in
  liveMeeting app' = liveMeeting app /\
  (liveMeeting app = None -> app' = app) /\
  (forall m, liveMeeting app = Some m ->
     participantsOf app m `prefix_of` participantsOf app' m).
Proof.
  intros Hcase. cbv zeta. unfold Room.handleStartMeeting.
  destruct (user app) as [u|] eqn:Hu; [|split; [|split]; reflexivity].
  destruct (Room.stream room); [|split; [|split]; reflexivity].
  assert (Hnew : Permission.isPrivileged (Some u) &&
                 negb (Room.isMeetingActive (liveMeeting app)) = false).
  { destruct Hcase as [-> | ->]; [apply andb_false_r | reflexivity]. }
  rewrite Hnew. cbn [snd]. apply join_keeps_cell.
Qed.

Lemma lobby_button_keeps_meeting_witness :
  liveMeeting
    (snd (Room.handleStartMeeting "m2" 5 (Sample.cameraOn "Retro") Sample.started))
  = liveMeeting Sample.started.
Proof.
  refine (proj1 (lobby_button_keeps_meeting "m2" 5 (Sample.cameraOn "Retro")
                   Sample.started _)).
  left. reflexivity.
Defined.

(** Terminating a session asks for confirmation once. Declined, it
    changes nothing. Confirmed, it empties the cell and removes the
    record, so a poll in any context gives [null]; and a session that
    was started when no record existed leaves [localStorage] as it was
    before the start. *)
Theorem terminate_session
  (confirm : string -> bool) (rid : string) (now : Z) (topic : string) (app : State) :
  let q := "WARNING: This will disconnect all participants and delete the session. Proceed?" in
  snd (Live.handleTerminateSession confirm app) = [App.Confirm q] /\
  (confirm q = false -> fst (Live.handleTerminateSession confirm app) = app) /\
  (confirm q = true ->
   liveMeeting (fst (Live.handleTerminateSession confirm app)) = None /\
   (forall v, checkMeeting
                (localStorage (fst (Live.handleTerminateSession confirm app))) v
              = (Json.Null, Returned)) /\
   (localStorage app !! KEY = None ->
    localStorage
      (fst (Live.handleTerminateSession confirm
              (handleStartLiveMeeting rid now topic app)))
    = localStorage app)).
Proof.
  cbv zeta. unfold Live.handleTerminateSession.
  destruct (confirm _) eqn:Hc; cbn [fst snd].
  - split; [reflexivity|]. split; [discriminate|]. intros _.
    split; [reflexivity|]. split.
    + intros v. apply PollFacts.checkMeeting_absent. simpl. apply lookup_delete_eq.
    + intros Habsent. unfold handleStartLiveMeeting.
      destruct (user app); simpl.
      * rewrite delete_insert_eq. apply delete_id. exact Habsent.
      * apply delete_id. exact Habsent.
  - split; [reflexivity|]. split; [reflexivity | discriminate].
Qed.

Lemma terminate_session_witness :
  localStorage
    (fst (Live.handleTerminateSession (fun _ => true)
            (handleStartLiveMeeting "m1" 1700000000000 "Sprint Review" Sample.lobby)))
  = localStorage Sample.lobby.
Proof.
  refine (proj2 (proj2 (proj2 (proj2
    (terminate_session (fun _ => true) "m1" 1700000000000 "Sprint Review" Sample.lobby))
    _)) _); reflexivity.
Defined.

(** A join by a user who is not listed writes the record of the cell
    whatever [localStorage] held, also when the host has removed the
    record in the meantime: a poll in any context then adopts it, with
    the name added at the end and the meeting as active as the cell
    says. *)
Theorem join_writes_record (st : State) (u : User) (m : LiveMeeting) (v : Json.value) :
  user st = Some u -> liveMeeting st = Some m ->
  User.name u ∉ participantsOf st m ->
  let st' := handleJoinLiveMeeting st in
  participantsOf st' m = (participantsOf st m ++ [User.name u])%list /\
  localStorage st' !! KEY = Some (stringify (arrays st') m) /\
  exists members,
    checkMeeting (localStorage st') v = (Json.Object members, Returned) /\
    ("isActive", Json.Bool (isActive m)) ∈ members /\
    ("participants",
     Json.Array (Json.strs (participantsOf st m ++ [User.name u])%list)) ∈ members.
Proof.
  intros Hu Hm Hnin. cbv zeta.
  destruct (MeetingFacts.join_unlisted st u m Hu Hm Hnin) as (_ & _ & Hp & Hs).
  assert (Hkey : localStorage (handleJoinLiveMeeting st) !! KEY
                 = Some (stringify (arrays (handleJoinLiveMeeting st)) m)).
  { rewrite Hs. apply lookup_insert_eq. }
  split; [exact Hp|]. split; [exact Hkey|].
  eexists. split; [apply PollFacts.checkMeeting_adopts; exact Hkey|].
  rewrite <- Hp. unfold parsed, participantsOf.
  split; repeat (first [apply list_elem_of_here | apply list_elem_of_further]).
Qed.

Lemma join_writes_record_witness :
  let stale := handleStopLiveMeeting Sample.visited in
  let guest := mkState (user stale) (liveMeeting Sample.visited) (arrays stale)
                 (localStorage stale) in
  localStorage guest !! KEY = None /\
  localStorage (handleJoinLiveMeeting guest) !! KEY
  = Some (stringify (arrays (handleJoinLiveMeeting guest)) Sample.sprintReview).
Proof.
  cbv zeta. split; [reflexivity|].
  refine (proj1 (proj2
    (join_writes_record
       (mkState (user (handleStopLiveMeeting Sample.visited))
          (liveMeeting Sample.visited)
          (arrays (handleStopLiveMeeting Sample.visited))
          (localStorage (handleStopLiveMeeting Sample.visited)))
       Auth.employee Sample.sprintReview Json.Null _ _ _))).
  - reflexivity.
  - reflexivity.
  - apply MeetingFacts.arrayIncludes_false. vm_compute. reflexivity.
Defined.

End SharedFacts.
